(** * mil_time_clock: the two interrupt routines of the 24 hour clock

    Shallow embedding of [src/clock_sdcc/src/main.c]: the globals become one
    record, each interrupt routine becomes a function from the sampled switch
    levels and the globals before the call to the globals after it.

    Conventions of the model.
    - [uint8_t] and [uint16_t] values are integers in [Z]; every store that
      can leave the range is written with its wrap-around ([u8], [u16]).
      The target is SDCC for the 8051, where [int] has 16 bits, so the
      difference of two [uint16_t] is an unsigned 16 bit difference.
    - The switches are the port pins [P3_0] .. [P3_4].  They are active low:
      a pin reads [true] (1) when the switch is released and [false] (0) when
      it is pressed, hence the [!SWITCH] tests of the source.  One invocation
      of a routine sees one sample of the pins.
    - An invocation runs to its end before the next one starts. *)

From Stdlib Require Import ZArith NArith List Bool Lia.
Import ListNotations.
Local Open Scope Z_scope.

(** ** Machine integers *)

Definition u8 (x : Z) : Z := x mod 256.
Definition u16 (x : Z) : Z := x mod 65536.

(** ** Constants of the source *)

Definition ON : Z := 1.
Definition OFF : Z := 0.
Definition MIN_DELAY : Z := 75.
Definition INIT_DELAY : Z := 125.
Definition RAMP_DELAY : Z := 5.
Definition TONE_TIME : Z := 250.

(** ** Data *)

(** [struct time] *)
Record time : Set := mkTime {
  one_minutes : Z;
  ten_minutes : Z;
  one_hours : Z;
  ten_hours : Z
}.

(** Levels of the five switch pins at one sample. *)
Record switches : Set := mkSwitches {
  SET_A_SWITCH : bool;
  SET_T_SWITCH : bool;
  HOUR_SWITCH : bool;
  MINUTE_SWITCH : bool;
  ALARM_SWITCH : bool
}.

(** The globals, and the [ALARM_LED] pin the tick routine drives. *)
Record state : Set := mkState {
  digitSelect : Z;
  switchTimeout : Z;
  initTimeout : Z;
  milliseconds : Z;
  prev_milliseconds : Z;
  seconds : Z;
  gs_timeKeeper : time;
  gs_alarmKeeper : time;
  alarm_on_off : Z;
  alarm_tone : Z;
  ALARM_LED : bool
}.

Definition midnight : time := mkTime 0 0 0 0.

(** The globals as their initialisers leave them; [P1 = 0xBF] leaves the
    alarm LED pin high. *)
Definition init_state : state :=
  mkState 1 0 INIT_DELAY 0 0 0 midnight midnight OFF 0 true.

(** ** Field updates *)

Definition set_one_minutes (v : Z) (t : time) : time :=
  mkTime v (ten_minutes t) (one_hours t) (ten_hours t).
Definition set_ten_minutes (v : Z) (t : time) : time :=
  mkTime (one_minutes t) v (one_hours t) (ten_hours t).
Definition set_one_hours (v : Z) (t : time) : time :=
  mkTime (one_minutes t) (ten_minutes t) v (ten_hours t).
Definition set_ten_hours (v : Z) (t : time) : time :=
  mkTime (one_minutes t) (ten_minutes t) (one_hours t) v.

Definition set_digitSelect (v : Z) (s : state) : state :=
  mkState v (switchTimeout s) (initTimeout s) (milliseconds s)
    (prev_milliseconds s) (seconds s) (gs_timeKeeper s) (gs_alarmKeeper s)
    (alarm_on_off s) (alarm_tone s) (ALARM_LED s).
Definition set_switchTimeout (v : Z) (s : state) : state :=
  mkState (digitSelect s) v (initTimeout s) (milliseconds s)
    (prev_milliseconds s) (seconds s) (gs_timeKeeper s) (gs_alarmKeeper s)
    (alarm_on_off s) (alarm_tone s) (ALARM_LED s).
Definition set_initTimeout (v : Z) (s : state) : state :=
  mkState (digitSelect s) (switchTimeout s) v (milliseconds s)
    (prev_milliseconds s) (seconds s) (gs_timeKeeper s) (gs_alarmKeeper s)
    (alarm_on_off s) (alarm_tone s) (ALARM_LED s).
Definition set_milliseconds (v : Z) (s : state) : state :=
  mkState (digitSelect s) (switchTimeout s) (initTimeout s) v
    (prev_milliseconds s) (seconds s) (gs_timeKeeper s) (gs_alarmKeeper s)
    (alarm_on_off s) (alarm_tone s) (ALARM_LED s).
Definition set_prev_milliseconds (v : Z) (s : state) : state :=
  mkState (digitSelect s) (switchTimeout s) (initTimeout s) (milliseconds s)
    v (seconds s) (gs_timeKeeper s) (gs_alarmKeeper s)
    (alarm_on_off s) (alarm_tone s) (ALARM_LED s).
Definition set_seconds (v : Z) (s : state) : state :=
  mkState (digitSelect s) (switchTimeout s) (initTimeout s) (milliseconds s)
    (prev_milliseconds s) v (gs_timeKeeper s) (gs_alarmKeeper s)
    (alarm_on_off s) (alarm_tone s) (ALARM_LED s).
Definition set_timeKeeper (v : time) (s : state) : state :=
  mkState (digitSelect s) (switchTimeout s) (initTimeout s) (milliseconds s)
    (prev_milliseconds s) (seconds s) v (gs_alarmKeeper s)
    (alarm_on_off s) (alarm_tone s) (ALARM_LED s).
Definition set_alarmKeeper (v : time) (s : state) : state :=
  mkState (digitSelect s) (switchTimeout s) (initTimeout s) (milliseconds s)
    (prev_milliseconds s) (seconds s) (gs_timeKeeper s) v
    (alarm_on_off s) (alarm_tone s) (ALARM_LED s).
Definition set_alarm_on_off (v : Z) (s : state) : state :=
  mkState (digitSelect s) (switchTimeout s) (initTimeout s) (milliseconds s)
    (prev_milliseconds s) (seconds s) (gs_timeKeeper s) (gs_alarmKeeper s)
    v (alarm_tone s) (ALARM_LED s).
Definition set_alarm_tone (v : Z) (s : state) : state :=
  mkState (digitSelect s) (switchTimeout s) (initTimeout s) (milliseconds s)
    (prev_milliseconds s) (seconds s) (gs_timeKeeper s) (gs_alarmKeeper s)
    (alarm_on_off s) v (ALARM_LED s).
Definition set_ALARM_LED (v : bool) (s : state) : state :=
  mkState (digitSelect s) (switchTimeout s) (initTimeout s) (milliseconds s)
    (prev_milliseconds s) (seconds s) (gs_timeKeeper s) (gs_alarmKeeper s)
    (alarm_on_off s) (alarm_tone s) v.

(** ** Statements

    A statement is a function on the globals; [c1 ;; c2] runs [c1] then
    [c2], and [when b c] is a C [if] without [else]. *)

Definition stmt : Set := state -> state.

Definition skip : stmt := fun s => s.
Definition seq (c1 c2 : stmt) : stmt := fun s => c2 (c1 s).
Definition ifte (b : state -> bool) (c1 c2 : stmt) : stmt :=
  fun s => if b s then c1 s else c2 s.
Definition when (b : state -> bool) (c : stmt) : stmt := ifte b c skip.

Declare Scope stmt_scope.
Delimit Scope stmt_scope with stmt.
Notation "c1 ;; c2" := (seq c1 c2)
  (at level 61, right associativity) : stmt_scope.
Local Open Scope stmt_scope.

(** An assignment to a member of [gs_timeKeeper] or of [gs_alarmKeeper]. *)
Definition timeKeeper_upd (f : time -> time) : stmt :=
  fun s => set_timeKeeper (f (gs_timeKeeper s)) s.
Definition alarmKeeper_upd (f : time -> time) : stmt :=
  fun s => set_alarmKeeper (f (gs_alarmKeeper s)) s.

(** [x.member++] and [x.member = 0] on a [struct time]. *)
Definition incr_one_minutes (t : time) : time :=
  set_one_minutes (u8 (one_minutes t + 1)) t.
Definition incr_ten_minutes (t : time) : time :=
  set_ten_minutes (u8 (ten_minutes t + 1)) t.
Definition incr_one_hours (t : time) : time :=
  set_one_hours (u8 (one_hours t + 1)) t.
Definition incr_ten_hours (t : time) : time :=
  set_ten_hours (u8 (ten_hours t + 1)) t.

(** [x.member += (SWITCH ? 0 : 1)] *)
Definition add_one_minutes (sw : bool) (t : time) : time :=
  set_one_minutes (u8 (one_minutes t + (if sw then 0 else 1))) t.
Definition add_one_hours (sw : bool) (t : time) : time :=
  set_one_hours (u8 (one_hours t + (if sw then 0 else 1))) t.

(** ** [timer_isr] (lines 399-472) *)

(** Lines 453-471: the comparison of the alarm time with the current time. *)
Definition same_time (a t : time) : bool :=
  (ten_hours a =? ten_hours t) && (one_hours a =? one_hours t)
  && (ten_minutes a =? ten_minutes t) && (one_minutes a =? one_minutes t).

(** Lines 425-451: the carries of the current time. *)
Definition timer_rollover : stmt :=
  when (fun s => one_minutes (gs_timeKeeper s) >? 9)
    (timeKeeper_upd incr_ten_minutes ;;
     timeKeeper_upd (set_one_minutes 0)) ;;
  when (fun s => ten_minutes (gs_timeKeeper s) >? 5)
    (timeKeeper_upd incr_one_hours ;;
     timeKeeper_upd (set_ten_minutes 0)) ;;
  when (fun s => one_hours (gs_timeKeeper s) >? 9)
    (timeKeeper_upd incr_ten_hours ;;
     timeKeeper_upd (set_one_hours 0)) ;;
  when (fun s => (ten_hours (gs_timeKeeper s) >=? 2)
                 && (one_hours (gs_timeKeeper s) >=? 4))
    (timeKeeper_upd (set_ten_hours 0) ;;
     timeKeeper_upd (set_one_hours 0)).

(** Lines 453-471: the alarm starts and stops the tone. *)
Definition timer_alarm : stmt :=
  when (fun s => alarm_on_off s =? ON)
    (when (fun s => same_time (gs_alarmKeeper s) (gs_timeKeeper s))
       (when (fun s => seconds s =? 0)
          ((fun s => set_prev_milliseconds (milliseconds s) s) ;;
           (fun s => set_alarm_tone 7 s)) ;;
        when (fun s => seconds s >=? 59)
          ((fun s => set_prev_milliseconds 0 s) ;;
           (fun s => set_alarm_tone 0 s)))).

Definition timer_isr (sw : switches) : stmt :=
  ifte (fun _ => negb (SET_T_SWITCH sw))
    (* seconds = 0; return; *)
    (fun s => set_seconds 0 s)
    ((fun s => set_seconds (u8 (seconds s + 1)) s) ;;
     when (fun s => seconds s >? 59)
       (timeKeeper_upd incr_one_minutes ;;
        (fun s => set_seconds 0 s)) ;;
     timer_rollover ;;
     timer_alarm).

(** ** [control_isr] (lines 232-396) *)

(** Lines 245-265: the alarm on/off switch is pressed. *)
Definition alarm_switch_branch : stmt :=
  (fun s => set_switchTimeout
              (if switchTimeout s >? MIN_DELAY then switchTimeout s
               else u8 (switchTimeout s + 1)) s) ;;
  when (fun s => switchTimeout s =? MIN_DELAY)
    ((fun s => set_alarm_on_off (if alarm_on_off s =? ON then OFF else ON) s) ;;
     (fun s => set_ALARM_LED (alarm_on_off s =? 0) s) ;;
     when (fun s => alarm_on_off s =? OFF)
       ((fun s => set_prev_milliseconds 0 s) ;;
        (fun s => set_alarm_tone 0 s))).

(** Lines 288-309: the carries of the alarm time after a manual set. *)
Definition alarm_set_rollover : stmt :=
  when (fun s => one_minutes (gs_alarmKeeper s) >? 9)
    (alarmKeeper_upd incr_ten_minutes ;;
     alarmKeeper_upd (set_one_minutes 0)) ;;
  when (fun s => ten_minutes (gs_alarmKeeper s) >? 5)
    (alarmKeeper_upd (set_ten_minutes 0)) ;;
  when (fun s => one_hours (gs_alarmKeeper s) >? 9)
    (alarmKeeper_upd incr_ten_hours ;;
     alarmKeeper_upd (set_one_hours 0)) ;;
  when (fun s => (ten_hours (gs_alarmKeeper s) >=? 2)
                 && (one_hours (gs_alarmKeeper s) >=? 4))
    (alarmKeeper_upd (set_ten_hours 0) ;;
     alarmKeeper_upd (set_one_hours 0)).

(** Lines 267-320: the alarm set switch is pressed. *)
Definition alarm_set_branch (sw : switches) : stmt :=
  (fun s => set_switchTimeout (u8 (switchTimeout s + 1)) s) ;;
  when (fun _ => MINUTE_SWITCH sw && HOUR_SWITCH sw)
    (fun s => set_initTimeout INIT_DELAY s) ;;
  when (fun s => (negb (MINUTE_SWITCH sw) || negb (HOUR_SWITCH sw))
                 && (switchTimeout s >? initTimeout s))
    (alarmKeeper_upd (add_one_minutes (MINUTE_SWITCH sw)) ;;
     alarmKeeper_upd (add_one_hours (HOUR_SWITCH sw)) ;;
     alarm_set_rollover ;;
     (fun s => set_switchTimeout 0 s) ;;
     when (fun s => initTimeout s >? MIN_DELAY)
       (fun s => set_initTimeout (u8 (initTimeout s - RAMP_DELAY)) s)).

(** Lines 343-364: the carries of the current time after a manual set. *)
Definition time_set_rollover : stmt :=
  when (fun s => one_minutes (gs_timeKeeper s) >? 9)
    (timeKeeper_upd incr_ten_minutes ;;
     timeKeeper_upd (set_one_minutes 0)) ;;
  when (fun s => ten_minutes (gs_timeKeeper s) >? 5)
    (timeKeeper_upd (set_ten_minutes 0)) ;;
  when (fun s => one_hours (gs_timeKeeper s) >? 9)
    (timeKeeper_upd incr_ten_hours ;;
     timeKeeper_upd (set_one_hours 0)) ;;
  when (fun s => (ten_hours (gs_timeKeeper s) >=? 2)
                 && (one_hours (gs_timeKeeper s) >=? 4))
    (timeKeeper_upd (set_ten_hours 0) ;;
     timeKeeper_upd (set_one_hours 0)).

(** Lines 322-375: the time set switch is pressed. *)
Definition time_set_branch (sw : switches) : stmt :=
  (fun s => set_switchTimeout (u8 (switchTimeout s + 1)) s) ;;
  when (fun _ => MINUTE_SWITCH sw && HOUR_SWITCH sw)
    (fun s => set_initTimeout INIT_DELAY s) ;;
  when (fun s => (negb (MINUTE_SWITCH sw) || negb (HOUR_SWITCH sw))
                 && (switchTimeout s >? initTimeout s))
    (timeKeeper_upd (add_one_minutes (MINUTE_SWITCH sw)) ;;
     timeKeeper_upd (add_one_hours (HOUR_SWITCH sw)) ;;
     time_set_rollover ;;
     (fun s => set_switchTimeout 0 s) ;;
     when (fun s => initTimeout s >? MIN_DELAY)
       (fun s => set_initTimeout (u8 (initTimeout s - RAMP_DELAY)) s)).

(** Lines 376-381: no switch is pressed. *)
Definition idle_branch : stmt :=
  (fun s => set_switchTimeout 0 s) ;;
  (fun s => set_initTimeout INIT_DELAY s).

(** Lines 383-391: the tone steps down every [TONE_TIME] milliseconds. *)
Definition tone_sequence : stmt :=
  when (fun s => negb (alarm_tone s =? 0))
    (when (fun s => u16 (milliseconds s - prev_milliseconds s) >? TONE_TIME)
       ((fun s => set_prev_milliseconds (milliseconds s) s) ;;
        (fun s => set_alarm_tone
                    (if alarm_tone s <=? 1 then 7 else u8 (alarm_tone s - 1))
                    s))).

(** Line 394: the digit selection moves by one position. *)
Definition digit_rotate : stmt :=
  fun s => set_digitSelect
             (if digitSelect s <? 8 then u8 (Z.shiftl (digitSelect s) 1)
              else 1) s.

(** Lines 244-381: the chain of tests on the switches. *)
Definition control_switches (sw : switches) : stmt :=
  ifte (fun _ => negb (ALARM_SWITCH sw)) alarm_switch_branch
    (ifte (fun _ => negb (SET_A_SWITCH sw)) (alarm_set_branch sw)
       (ifte (fun _ => negb (SET_T_SWITCH sw)) (time_set_branch sw)
          idle_branch)).

Definition control_isr (sw : switches) : stmt :=
  (fun s => set_milliseconds (u16 (milliseconds s + 1)) s) ;;
  control_switches sw ;;
  tone_sequence ;;
  digit_rotate.

(** ** Runs of the two routines *)

Inductive event : Set :=
| Millisecond (sw : switches)   (* timer 0 overflows: [control_isr] *)
| Second (sw : switches).       (* timer 1 overflows: [timer_isr] *)

Definition step (e : event) : stmt :=
  match e with
  | Millisecond sw => control_isr sw
  | Second sw => timer_isr sw
  end.

Fixpoint run (es : list event) (s : state) : state :=
  match es with
  | [] => s
  | e :: es' => run es' (step e s)
  end.

(** [n] consecutive milliseconds with the switches held at [sw]. *)
Definition hold (n : nat) (sw : switches) : stmt :=
  run (repeat (Millisecond sw) n).

(** No switch pressed: every pin reads high. *)
Definition released : switches := mkSwitches true true true true true.

(** ** The rollover of section 4.2, as the specification words it

    Each carry is one sentence of the rule; the seconds step is the
    "per invocation" list of section 4.2 for a released time-set switch. *)

Definition spec_carry_onesMinutes (t : time) : time :=
  if one_minutes t >? 9
  then mkTime 0 (u8 (ten_minutes t + 1)) (one_hours t) (ten_hours t)
  else t.

Definition spec_carry_tensMinutes (t : time) : time :=
  if ten_minutes t >? 5
  then mkTime (one_minutes t) 0 (u8 (one_hours t + 1)) (ten_hours t)
  else t.

Definition spec_carry_onesHours (t : time) : time :=
  if one_hours t >? 9
  then mkTime (one_minutes t) (ten_minutes t) 0 (u8 (ten_hours t + 1))
  else t.

Definition spec_joint_wrap (t : time) : time :=
  if (ten_hours t >=? 2) && (one_hours t >=? 4)
  then mkTime (one_minutes t) (ten_minutes t) 0 0
  else t.

Definition spec_rollover (t : time) : time :=
  spec_joint_wrap
    (spec_carry_onesHours (spec_carry_tensMinutes (spec_carry_onesMinutes t))).

Definition spec_seconds_step (c : Z * time) : Z * time :=
  let (sec, t) := c in
  let sec1 := u8 (sec + 1) in
  if sec1 >? 59
  then (0, spec_rollover (mkTime (u8 (one_minutes t + 1)) (ten_minutes t)
                            (one_hours t) (ten_hours t)))
  else (sec1, spec_rollover t).

(** ** Views of [control_isr] used to state its properties *)

(** The rollover pass of a manual set, lines 288-309 (and again 343-364),
    as a function on the structure it works on. *)
Definition set_rollover (t : time) : time :=
  let t1 := if one_minutes t >? 9
            then set_one_minutes 0 (incr_ten_minutes t) else t in
  let t2 := if ten_minutes t1 >? 5 then set_ten_minutes 0 t1 else t1 in
  let t3 := if one_hours t2 >? 9
            then set_one_hours 0 (incr_ten_hours t2) else t2 in
  if (ten_hours t3 >=? 2) && (one_hours t3 >=? 4)
  then set_one_hours 0 (set_ten_hours 0 t3) else t3.

(** One accepted manual set action on a structure: lines 282-309. *)
Definition set_action (sw : switches) (t : time) : time :=
  set_rollover
    (add_one_hours (HOUR_SWITCH sw) (add_one_minutes (MINUTE_SWITCH sw) t)).

(** The structure a set mode works on: the alarm set switch is tested
    first (line 267), the time set switch after it (line 322). *)
Definition selected (sw : switches) (s : state) : time :=
  if negb (SET_A_SWITCH sw) then gs_alarmKeeper s else gs_timeKeeper s.

(** A set mode is entered: the alarm switch is released and one of the
    two set switches is pressed. *)
Definition set_mode (sw : switches) : bool :=
  ALARM_SWITCH sw && (negb (SET_A_SWITCH sw) || negb (SET_T_SWITCH sw)).

(** The test of lines 279 and 334, on the globals before the call. *)
Definition set_accepts (sw : switches) (s : state) : bool :=
  (negb (MINUTE_SWITCH sw) || negb (HOUR_SWITCH sw))
  && (u8 (switchTimeout s + 1)
      >? (if MINUTE_SWITCH sw && HOUR_SWITCH sw then INIT_DELAY
          else initTimeout s)).

(** The ramp of lines 315-318 (and 370-373) on the repeat threshold. *)
Definition ramp (it : Z) : Z :=
  if it >? MIN_DELAY then u8 (it - RAMP_DELAY) else it.

(** The hold counter after line 248. *)
Definition alarm_count (st : Z) : Z :=
  if st >? MIN_DELAY then st else u8 (st + 1).

(** The toggle of line 254. *)
Definition toggle (a : Z) : Z := if a =? ON then OFF else ON.

(** What the tone sequencing reads and writes. *)
Definition tone_view (s : state) : Z * Z * Z :=
  (milliseconds s, prev_milliseconds s, alarm_tone s).

(** Lines 383-391 on what they read and write. *)
Definition tone_next (v : Z * Z * Z) : Z * Z * Z :=
  let '(ms, pms, tone) := v in
  if negb (tone =? 0) && (u16 (ms - pms) >? TONE_TIME)
  then (ms, ms, if tone <=? 1 then 7 else u8 (tone - 1))
  else v.

(** The same after the increment of [milliseconds] (line 242): what one
    millisecond does to the tone when no switch acts on it. *)
Definition tone_tick (v : Z * Z * Z) : Z * Z * Z :=
  let '(ms, pms, tone) := v in tone_next (u16 (ms + 1), pms, tone).

(** ** The range invariant of a [struct time] *)

Definition valid_time (t : time) : Prop :=
  0 <= one_minutes t <= 9 /\ 0 <= ten_minutes t <= 5 /\
  0 <= one_hours t <= 9 /\ ~ (ten_hours t >= 2 /\ one_hours t >= 4).

Definition keepers_valid (s : state) : Prop :=
  valid_time (gs_timeKeeper s) /\ valid_time (gs_alarmKeeper s).

(** ** Presses and their effect *)

(** The milliseconds [sws] have changed no digit and not the alarm flag,
    and have left the tone where as many milliseconds with every switch
    released leave it. *)
Definition no_effect (sws : list switches) (s : state) : Prop :=
  gs_timeKeeper (run (map Millisecond sws) s) = gs_timeKeeper s /\
  gs_alarmKeeper (run (map Millisecond sws) s) = gs_alarmKeeper s /\
  alarm_on_off (run (map Millisecond sws) s) = alarm_on_off s /\
  tone_view (run (map Millisecond sws) s)
  = tone_view (hold (length sws) released s).

(** Between [s] and [s'] at most one action has taken place: nothing, or
    one toggle of the alarm flag, or one set action on one of the two
    structures. *)
Definition at_most_one_action (sw : switches) (s s' : state) : Prop :=
  (gs_timeKeeper s' = gs_timeKeeper s /\
   gs_alarmKeeper s' = gs_alarmKeeper s /\
   alarm_on_off s' = alarm_on_off s)
  \/ (gs_timeKeeper s' = gs_timeKeeper s /\
      gs_alarmKeeper s' = gs_alarmKeeper s /\
      alarm_on_off s' = toggle (alarm_on_off s))
  \/ (gs_timeKeeper s' = gs_timeKeeper s /\
      gs_alarmKeeper s' = set_action sw (gs_alarmKeeper s) /\
      alarm_on_off s' = alarm_on_off s)
  \/ (gs_timeKeeper s' = set_action sw (gs_timeKeeper s) /\
      gs_alarmKeeper s' = gs_alarmKeeper s /\
      alarm_on_off s' = alarm_on_off s).

(** ** The ramp of the repeat threshold *)

(** The threshold after [k] accepted increments of one hold. *)
Definition threshold (k : nat) : Z :=
  Z.max MIN_DELAY (INIT_DELAY - RAMP_DELAY * Z.of_nat k).

(** The millisecond, counted from the start of the hold, at which the
    [k]-th increment is accepted. *)
Fixpoint accept_tick (k : nat) : nat :=
  match k with
  | O => O
  | S k' => accept_tick k' + Z.to_nat (threshold k' + 1)
  end.

(** ** The display loop of [main] and the wait of [waitForTimeSet]

    The loop of [main] (lines 163-200) and the loop of [waitForTimeSet]
    (lines 217-225) run in the background.  One pass of either is taken on
    one sample of the globals and of the pins, like an invocation of an
    interrupt routine. *)

(** [segmentArray] (line 92) *)
Definition segmentArray : list Z :=
  [0x3F; 0x06; 0x5B; 0x4F; 0x66; 0x6D; 0x7D; 0x07; 0x7F; 0x6F].

(** A read of [segmentArray]; there is no value beyond its ten entries. *)
Definition segment (i : Z) : option Z :=
  if i <? 0 then None else nth_error segmentArray (Z.to_nat i).

(** The output ports [P0], [P1], [P2] and the local [prev_digitSelect] of
    [main].  Bit 6 of [P1] is the pin [DOT_LED] and bit 7 the pin
    [ALARM_LED]. *)
Record display : Set := mkDisplay {
  P0 : Z;
  P1 : Z;
  P2 : Z;
  prev_digitSelect : Z
}.

(** The ports after lines 151-158 and the local after line 131. *)
Definition init_display : display := mkDisplay 0x3F 0xBF 0x00 1.

(** [DOT_LED = v]: an assignment to the bit [P1_6]. *)
Definition set_DOT_LED (v : Z) (p1 : Z) : Z :=
  Z.lor (Z.land p1 0xBF) (if v =? 0 then 0x00 else 0x40).

(** Lines 166-199: one pass of the loop of [main]. *)
Definition display_refresh (sw : switches) (s : state) (d : display)
  : option display :=
  if negb (prev_digitSelect d =? digitSelect s)
  then
    (* P0 = 0 *)
    let p0 := 0 in
    let p1 := Z.lor (Z.land (P1 d) 0xC0)
                (if negb (SET_A_SWITCH sw) then 0x00
                 else Z.land (Z.lnot (seconds s)) 0x3F) in
    let prev := digitSelect s in
    let p2 := u8 (Z.lor (Z.shiftl (alarm_tone s) 4)
                    (Z.land (digitSelect s) 0x0F)) in
    let p1 := set_DOT_LED
                (if negb (SET_T_SWITCH sw) || negb (SET_A_SWITCH sw) then 0
                 else Z.land (seconds s) 0x01) p1 in
    if digitSelect s =? 1 then
      option_map (fun p => mkDisplay p p1 p2 prev)
        (segment (if SET_A_SWITCH sw then one_minutes (gs_timeKeeper s)
                  else one_minutes (gs_alarmKeeper s)))
    else if digitSelect s =? 2 then
      option_map (fun p => mkDisplay p p1 p2 prev)
        (segment (if SET_A_SWITCH sw then ten_minutes (gs_timeKeeper s)
                  else ten_minutes (gs_alarmKeeper s)))
    else if digitSelect s =? 4 then
      option_map (fun p => mkDisplay p p1 p2 prev)
        (segment (if SET_A_SWITCH sw then one_hours (gs_timeKeeper s)
                  else one_hours (gs_alarmKeeper s)))
    else if digitSelect s =? 8 then
      option_map (fun p => mkDisplay p p1 p2 prev)
        (segment (if SET_A_SWITCH sw then ten_hours (gs_timeKeeper s)
                  else ten_hours (gs_alarmKeeper s)))
    else Some (mkDisplay p0 p1 p2 prev)
  else Some d.

(** The loop of [waitForTimeSet], a statement at a time: an interrupt can
    come between any two of them. *)

(** Line 220: [P2 = ((seconds & 0x01) ? 0x0F : 0x00)]. *)
Definition wait_P2 (c : state * display) : state * display :=
  let (s, d) := c in
  (s, mkDisplay (P0 d) (P1 d)
        (if negb (Z.land (seconds s) 0x01 =? 0) then 0x0F else 0x00)
        (prev_digitSelect d)).

(** Line 222: [DOT_LED = seconds & 0x01]. *)
Definition wait_DOT_LED (c : state * display) : state * display :=
  let (s, d) := c in
  (s, mkDisplay (P0 d) (set_DOT_LED (Z.land (seconds s) 0x01) (P1 d))
        (P2 d) (prev_digitSelect d)).

(** Line 224: [seconds = seconds & 0x01]. *)
Definition wait_seconds (c : state * display) : state * display :=
  let (s, d) := c in
  (set_seconds (Z.land (seconds s) 0x01) s, d).

(** Lines 219-224: one pass of the loop with no interrupt inside it. *)
Definition wait_pass (c : state * display) : state * display :=
  wait_seconds (wait_DOT_LED (wait_P2 c)).

(** What happens while [waitForTimeSet] loops: one of the three statements
    of its loop, or an interrupt. *)
Inductive wait_event : Set :=
| Flash
| Dot
| Mask
| Interrupt (e : event).

(** [ALARM_LED = v]: an assignment to the bit [P1_7]. *)
Definition set_ALARM_LED_pin (v : bool) (p1 : Z) : Z :=
  Z.lor (Z.land p1 0x7F) (if v then 0x80 else 0x00).

(** What an interrupt does to the ports.  The only write of a port in the
    two routines is [ALARM_LED = !alarm_on_off] (line 256), made by
    [control_isr] with the alarm switch pressed when the hold counter has
    come to [MIN_DELAY] (lines 245-251); [timer_isr] writes none. *)
Definition interrupt_ports (e : event) (s : state) (d : display) : display :=
  match e with
  | Millisecond sw =>
      if negb (ALARM_SWITCH sw)
         && (alarm_count (switchTimeout s) =? MIN_DELAY)
      then mkDisplay (P0 d)
             (set_ALARM_LED_pin (ALARM_LED (control_isr sw s)) (P1 d))
             (P2 d) (prev_digitSelect d)
      else d
  | Second _ => d
  end.

Fixpoint wait_run (es : list wait_event) (c : state * display)
  : state * display :=
  match es with
  | [] => c
  | Flash :: es' => wait_run es' (wait_P2 c)
  | Dot :: es' => wait_run es' (wait_DOT_LED c)
  | Mask :: es' => wait_run es' (wait_seconds c)
  | Interrupt e :: es' =>
      wait_run es' (step e (fst c), interrupt_ports e (fst c) (snd c))
  end.

(** The loop comes round often enough: never more than [budget] seconds
    interrupts before line 224 is next run, and never more than 58 between
    two runs of it. *)
Fixpoint paced (budget : nat) (es : list wait_event) : bool :=
  match es with
  | [] => true
  | Mask :: es' => paced 58 es'
  | Flash :: es' => paced budget es'
  | Dot :: es' => paced budget es'
  | Interrupt (Second _) :: es' =>
      match budget with
      | O => false
      | S b => paced b es'
      end
  | Interrupt (Millisecond _) :: es' => paced budget es'
  end.

(** The time-set switch as an interrupt sees it. *)
Definition event_SET_T (e : wait_event) : bool :=
  match e with
  | Interrupt (Millisecond sw) => SET_T_SWITCH sw
  | Interrupt (Second sw) => SET_T_SWITCH sw
  | _ => true
  end.

(** What is kept of the ports from one event of the wait to the next: [P0],
    the digit last shown, the low six bits of [P1], and bit 7 of [P1] in
    step with the alarm LED of the globals. *)
Definition ports_kept (c c' : state * display) : Prop :=
  P0 (snd c') = P0 (snd c) /\
  prev_digitSelect (snd c') = prev_digitSelect (snd c) /\
  Z.land (P1 (snd c')) 0x3F = Z.land (P1 (snd c)) 0x3F /\
  (Z.testbit (P1 (snd c)) 7 = ALARM_LED (fst c) ->
   Z.testbit (P1 (snd c')) 7 = ALARM_LED (fst c')).

(** ** What the digits stand for *)

Definition hour_of (t : time) : Z := 10 * ten_hours t + one_hours t.
Definition minute_of (t : time) : Z := 10 * ten_minutes t + one_minutes t.
Definition minutes_of_day (t : time) : Z := 60 * hour_of t + minute_of t.
Definition seconds_of_day (s : state) : Z :=
  60 * minutes_of_day (gs_timeKeeper s) + seconds s.

(** The digit of a structure under the digit selection. *)
Definition digit_at (cursor : Z) (t : time) : Z :=
  if cursor =? 1 then one_minutes t
  else if cursor =? 2 then ten_minutes t
  else if cursor =? 4 then one_hours t
  else ten_hours t.

(** The digit a segment pattern stands for. *)
Fixpoint pattern_index (p : Z) (l : list Z) (i : Z) : option Z :=
  match l with
  | [] => None
  | q :: l' => if p =? q then Some i else pattern_index p l' (i + 1)
  end.

Definition digit_of_pattern (p : Z) : option Z :=
  pattern_index p segmentArray 0.

(** The successor of a digit selection (line 394). *)
Definition next_digit (ds : Z) : Z :=
  if ds <? 8 then u8 (Z.shiftl ds 1) else 1.

(** ** The states the two routines keep to *)

Definition one_hot (ds : Z) : Prop := ds = 1 \/ ds = 2 \/ ds = 4 \/ ds = 8.

Definition clock_time (t : time) : Prop :=
  valid_time t /\ 0 <= ten_hours t <= 2.

Definition state_ok (s : state) : Prop :=
  0 <= seconds s <= 59 /\
  clock_time (gs_timeKeeper s) /\
  clock_time (gs_alarmKeeper s) /\
  one_hot (digitSelect s) /\
  0 <= alarm_tone s <= 7 /\
  (alarm_on_off s = ON \/ alarm_on_off s = OFF) /\
  ALARM_LED s = (alarm_on_off s =? 0) /\
  (alarm_tone s <> 0 -> alarm_on_off s = ON) /\
  0 <= switchTimeout s <= 255 /\
  (exists k : nat, initTimeout s = threshold k) /\
  0 <= milliseconds s < 65536.

(** * Proofs *)

(** ** Tactics *)

(** Runs the assignments and sequences; conditionals stay closed. *)
Ltac run_stmts :=
  cbv beta iota delta
    [seq when skip timeKeeper_upd alarmKeeper_upd
     incr_one_minutes incr_ten_minutes incr_one_hours incr_ten_hours
     add_one_minutes add_one_hours set_one_minutes set_ten_minutes
     set_one_hours set_ten_hours set_digitSelect set_switchTimeout
     set_initTimeout set_milliseconds set_prev_milliseconds set_seconds
     set_timeKeeper set_alarmKeeper set_alarm_on_off set_alarm_tone
     set_ALARM_LED
     one_minutes ten_minutes one_hours ten_hours
     digitSelect switchTimeout initTimeout milliseconds prev_milliseconds
     seconds gs_timeKeeper gs_alarmKeeper alarm_on_off alarm_tone ALARM_LED].

(** Opens a conditional statement that is applied to evaluated globals. *)
Ltac open_ifte :=
  match goal with
  | |- context [ifte ?b ?c1 ?c2 ?S] =>
      lazymatch S with
      | context [ifte] => fail
      | context [if _ then _ else _] => fail
      | _ => change (ifte b c1 c2 S) with (if b S then c1 S else c2 S)
      end
  end.

(** Splits on the guard of an [if] whose guard holds no [if] itself. *)
Ltac split_if :=
  match goal with
  | |- context [if ?b then _ else _] =>
      lazymatch b with
      | context [if _ then _ else _] => fail
      | _ => destruct b eqn:?
      end
  end.

Ltac exec :=
  run_stmts; repeat (first [split_if | open_ifte]; run_stmts).

(** Turns the boolean comparisons of the context into propositions. *)
Ltac bool_to_prop :=
  repeat match goal with
    | H : (_ && _) = true |- _ => apply andb_true_iff in H; destruct H
    | H : (_ && _) = false |- _ => apply andb_false_iff in H
    | H : (_ || _) = true |- _ => apply orb_true_iff in H
    | H : (_ || _) = false |- _ => apply orb_false_iff in H; destruct H
    | H : negb _ = true |- _ => apply negb_true_iff in H
    | H : negb _ = false |- _ => apply negb_false_iff in H
    | H : (_ >? _) = _ |- _ => rewrite Z.gtb_ltb in H
    | H : (_ >=? _) = _ |- _ => rewrite Z.geb_leb in H
    | H : (_ <? _) = true |- _ => apply Z.ltb_lt in H
    | H : (_ <? _) = false |- _ => apply Z.ltb_ge in H
    | H : (_ <=? _) = true |- _ => apply Z.leb_le in H
    | H : (_ <=? _) = false |- _ => apply Z.leb_gt in H
    | H : (_ =? _) = true |- _ => apply Z.eqb_eq in H
    | H : (_ =? _) = false |- _ => apply Z.eqb_neq in H
    end.

Lemma seq_app (c1 c2 : stmt) (s : state) : (c1 ;; c2) s = c2 (c1 s).
Proof. reflexivity. Qed.

Lemma when_app (b : state -> bool) (c : stmt) (s : state) :
  when b c s = if b s then c s else s.
Proof. reflexivity. Qed.

(** Opens the sequences and conditionals at the head of the goal. *)
Ltac open_stmts := repeat progress rewrite ?seq_app, ?when_app.

(** ** The carries as functions on a [struct time] *)

Lemma timer_rollover_spec (s : state) :
  timer_rollover s = set_timeKeeper (spec_rollover (gs_timeKeeper s)) s.
Proof.
  destruct s as [ds st it ms pms sec [om tm oh th] ak a tone led].
  unfold timer_rollover, spec_rollover, spec_carry_onesMinutes,
    spec_carry_tensMinutes, spec_carry_onesHours, spec_joint_wrap.
  exec; try reflexivity; try congruence.
Qed.

Lemma alarm_set_rollover_spec (s : state) :
  alarm_set_rollover s = set_alarmKeeper (set_rollover (gs_alarmKeeper s)) s.
Proof.
  destruct s as [ds st it ms pms sec tk [om tm oh th] a tone led].
  unfold alarm_set_rollover, set_rollover.
  exec; try reflexivity; try congruence.
Qed.

Lemma time_set_rollover_spec (s : state) :
  time_set_rollover s = set_timeKeeper (set_rollover (gs_timeKeeper s)) s.
Proof.
  destruct s as [ds st it ms pms sec [om tm oh th] ak a tone led].
  unfold time_set_rollover, set_rollover.
  exec; try reflexivity; try congruence.
Qed.

(** ** The seconds engine *)

Lemma timer_isr_hold (sw : switches) (s : state) :
  SET_T_SWITCH sw = false -> timer_isr sw s = set_seconds 0 s.
Proof.
  intros Hsw. unfold timer_isr, ifte. now rewrite Hsw.
Qed.

(** With the time-set switch released the routine puts the step of
    section 4.2 on the seconds and the current time, then looks at the
    alarm. *)
Lemma timer_isr_run (sw : switches) (s : state) :
  SET_T_SWITCH sw = true ->
  timer_isr sw s
  = timer_alarm
      (set_timeKeeper (snd (spec_seconds_step (seconds s, gs_timeKeeper s)))
         (set_seconds (fst (spec_seconds_step (seconds s, gs_timeKeeper s)))
            s)).
Proof.
  intros Hsw. unfold timer_isr, ifte at 1. rewrite Hsw. simpl negb. cbv iota.
  unfold seq. rewrite timer_rollover_spec. f_equal.
  destruct s as [ds st it ms pms sec [om tm oh th] ak a tone led].
  unfold spec_seconds_step. exec; try reflexivity; discriminate.
Qed.

Lemma timer_alarm_clock (s : state) :
  seconds (timer_alarm s) = seconds s /\
  gs_timeKeeper (timer_alarm s) = gs_timeKeeper s /\
  gs_alarmKeeper (timer_alarm s) = gs_alarmKeeper s /\
  alarm_on_off (timer_alarm s) = alarm_on_off s.
Proof.
  destruct s as [ds st it ms pms sec tk ak a tone led].
  unfold timer_alarm. exec; repeat split; reflexivity.
Qed.

Lemma timer_alarm_off (s : state) :
  alarm_on_off s <> ON -> timer_alarm s = s.
Proof.
  intros Hoff. unfold timer_alarm, when, ifte at 1.
  destruct (alarm_on_off s =? ON) eqn:E; [ | reflexivity ].
  apply Z.eqb_eq in E. contradiction.
Qed.

Lemma timer_isr_clock (sw : switches) (s : state) :
  SET_T_SWITCH sw = true ->
  (seconds (timer_isr sw s), gs_timeKeeper (timer_isr sw s))
  = spec_seconds_step (seconds s, gs_timeKeeper s).
Proof.
  intros Hsw. rewrite (timer_isr_run sw s Hsw).
  destruct (timer_alarm_clock
              (set_timeKeeper
                 (snd (spec_seconds_step (seconds s, gs_timeKeeper s)))
                 (set_seconds
                    (fst (spec_seconds_step (seconds s, gs_timeKeeper s)))
                    s))) as (-> & -> & _).
  now destruct (spec_seconds_step (seconds s, gs_timeKeeper s)).
Qed.

(** C9: a seconds-engine invocation with the time-set switch pressed sets
    [seconds] to 0 and leaves every other global as it was: the four digits
    of [gs_timeKeeper] and of [gs_alarmKeeper], [alarm_on_off],
    [alarm_tone], [prev_milliseconds], and the rest. *)
Theorem time_set_freezes_seconds (sw : switches) (s : state) :
  SET_T_SWITCH sw = false ->
  seconds (timer_isr sw s) = 0 /\
  gs_timeKeeper (timer_isr sw s) = gs_timeKeeper s /\
  gs_alarmKeeper (timer_isr sw s) = gs_alarmKeeper s /\
  alarm_on_off (timer_isr sw s) = alarm_on_off s /\
  alarm_tone (timer_isr sw s) = alarm_tone s /\
  prev_milliseconds (timer_isr sw s) = prev_milliseconds s /\
  milliseconds (timer_isr sw s) = milliseconds s /\
  switchTimeout (timer_isr sw s) = switchTimeout s /\
  initTimeout (timer_isr sw s) = initTimeout s /\
  digitSelect (timer_isr sw s) = digitSelect s /\
  ALARM_LED (timer_isr sw s) = ALARM_LED s.
Proof.
  intros Hsw. rewrite (timer_isr_hold sw s Hsw).
  repeat split; reflexivity.
Qed.

Lemma time_set_freezes_seconds_witness :
  let sw := mkSwitches true false true false true in
  let s := mkState 4 17 120 900 650 42 (mkTime 9 5 3 2) (mkTime 0 3 7 0)
             ON 5 false in
  SET_T_SWITCH sw = false /\
  seconds (timer_isr sw s) = 0 /\
  gs_timeKeeper (timer_isr sw s) = mkTime 9 5 3 2 /\
  gs_alarmKeeper (timer_isr sw s) = mkTime 0 3 7 0 /\
  alarm_on_off (timer_isr sw s) = ON /\
  alarm_tone (timer_isr sw s) = 5 /\
  prev_milliseconds (timer_isr sw s) = 650.
Proof.
  intros sw s.
  destruct (time_set_freezes_seconds sw s eq_refl)
    as (H1 & H2 & H3 & H4 & H5 & H6 & _).
  repeat split; assumption.
Defined.

(** C3: with the time-set switch released, an invocation of the seconds
    engine applies the rollover of section 4.2 in the order the
    specification gives ([spec_seconds_step]: seconds first, then the
    carries from the minutes up, then the joint wrap on every invocation).
    From 19:59:59 it gives 20:00:00, from 23:59:59 it gives 00:00:00. *)
Theorem timer_isr_rollover_order (sw : switches) (s : state) :
  SET_T_SWITCH sw = true ->
  (seconds (timer_isr sw s), gs_timeKeeper (timer_isr sw s))
  = spec_seconds_step (seconds s, gs_timeKeeper s)
  /\ (seconds s = 59 -> gs_timeKeeper s = mkTime 9 5 9 1 ->
      seconds (timer_isr sw s) = 0 /\
      gs_timeKeeper (timer_isr sw s) = mkTime 0 0 0 2)
  /\ (seconds s = 59 -> gs_timeKeeper s = mkTime 9 5 3 2 ->
      seconds (timer_isr sw s) = 0 /\
      gs_timeKeeper (timer_isr sw s) = mkTime 0 0 0 0).
Proof.
  intros Hsw. pose proof (timer_isr_clock sw s Hsw) as H.
  split; [ exact H | ].
  split; intros Hsec Htime; rewrite Hsec, Htime in H.
  - change (spec_seconds_step (59, mkTime 9 5 9 1))
      with (0, mkTime 0 0 0 2) in H.
    now inversion H.
  - change (spec_seconds_step (59, mkTime 9 5 3 2))
      with (0, mkTime 0 0 0 0) in H.
    now inversion H.
Qed.

Lemma timer_isr_rollover_order_witness :
  let sw := mkSwitches true true true true true in
  let s1 := mkState 1 0 125 0 0 59 (mkTime 9 5 9 1) midnight OFF 0 true in
  let s2 := mkState 1 0 125 0 0 59 (mkTime 9 5 3 2) midnight OFF 0 true in
  SET_T_SWITCH sw = true /\
  (seconds (timer_isr sw s1) = 0 /\
   gs_timeKeeper (timer_isr sw s1) = mkTime 0 0 0 2) /\
  (seconds (timer_isr sw s2) = 0 /\
   gs_timeKeeper (timer_isr sw s2) = mkTime 0 0 0 0).
Proof.
  intros sw s1 s2. split; [ reflexivity | ]. split.
  - destruct (timer_isr_rollover_order sw s1 eq_refl) as (_ & H & _).
    apply H; reflexivity.
  - destruct (timer_isr_rollover_order sw s2 eq_refl) as (_ & _ & H).
    apply H; reflexivity.
Defined.

(** ** A whole day of seconds *)

Lemma run_seconds_off (sws : list switches) (s : state) :
  Forall (fun sw => SET_T_SWITCH sw = true) sws ->
  alarm_on_off s <> ON ->
  run (map Second sws) s
  = set_timeKeeper
      (snd (Nat.iter (length sws) spec_seconds_step
              (seconds s, gs_timeKeeper s)))
      (set_seconds
         (fst (Nat.iter (length sws) spec_seconds_step
                 (seconds s, gs_timeKeeper s)))
         s).
Proof.
  intros Hall. revert s. induction Hall as [ | sw sws Hsw _ IH ]; intros s Hoff.
  - destruct s; reflexivity.
  - cbn [map run step length]. rewrite Nat.iter_succ_r.
    rewrite (timer_isr_run sw s Hsw).
    rewrite timer_alarm_off by exact Hoff.
    rewrite IH by exact Hoff.
    destruct (spec_seconds_step (seconds s, gs_timeKeeper s)) as [sec' t'].
    reflexivity.
Qed.

Lemma day_of_seconds :
  N.iter 86400 spec_seconds_step (0, midnight) = (0, midnight).
Proof. vm_compute. reflexivity. Qed.

(** C7: 86400 invocations of the seconds engine, with the time-set switch
    released and the alarm off, from 00:00 and [seconds = 0], bring
    [gs_timeKeeper] back to 00:00 and [seconds] to 0; nothing else has
    changed either. *)
Theorem full_day_round_trip (sws : list switches) (s : state) :
  length sws = N.to_nat 86400 ->
  Forall (fun sw => SET_T_SWITCH sw = true) sws ->
  alarm_on_off s = OFF ->
  gs_timeKeeper s = midnight ->
  seconds s = 0 ->
  gs_timeKeeper (run (map Second sws) s) = midnight /\
  seconds (run (map Second sws) s) = 0 /\
  run (map Second sws) s = s.
Proof.
  intros Hlen Hall Hoff Htime Hsec.
  rewrite (run_seconds_off sws s Hall) by (rewrite Hoff; discriminate).
  rewrite Hlen, Htime, Hsec, <- N2Nat.inj_iter, day_of_seconds.
  clear Hlen Hall. destruct s as [ds st it ms pms sec tk ak a tone led].
  cbn [gs_timeKeeper seconds] in Htime, Hsec. subst tk sec.
  repeat split; reflexivity.
Qed.

Lemma full_day_round_trip_witness :
  let sws := repeat released (N.to_nat 86400) in
  length sws = N.to_nat 86400 /\
  gs_timeKeeper (run (map Second sws) init_state) = midnight /\
  seconds (run (map Second sws) init_state) = 0.
Proof.
  intros sws.
  assert (Hlen : length sws = N.to_nat 86400) by apply repeat_length.
  assert (Hall : Forall (fun sw => SET_T_SWITCH sw = true) sws).
  { apply Forall_forall. intros sw Hin.
    apply repeat_spec in Hin. rewrite Hin. reflexivity. }
  destruct (full_day_round_trip sws init_state Hlen Hall eq_refl eq_refl
              eq_refl) as (H1 & H2 & _).
  exact (conj Hlen (conj H1 H2)).
Defined.

(** ** One millisecond, branch by branch *)

Lemma alarm_switch_branch_eq (s : state) :
  alarm_switch_branch s
  = let c := alarm_count (switchTimeout s) in
    if c =? MIN_DELAY
    then
      let a := toggle (alarm_on_off s) in
      let s1 := set_ALARM_LED (a =? 0)
                  (set_alarm_on_off a (set_switchTimeout c s)) in
      if a =? OFF
      then set_alarm_tone 0 (set_prev_milliseconds 0 s1)
      else s1
    else set_switchTimeout c s.
Proof.
  destruct s as [ds st it ms pms sec tk ak a tone led].
  unfold alarm_switch_branch, alarm_count, toggle.
  exec; try reflexivity; try discriminate.
Qed.

Lemma alarm_set_branch_eq (sw : switches) (s : state) :
  alarm_set_branch sw s
  = if set_accepts sw s
    then set_initTimeout (ramp (initTimeout s))
           (set_switchTimeout 0
              (set_alarmKeeper (set_action sw (gs_alarmKeeper s)) s))
    else set_initTimeout
           (if MINUTE_SWITCH sw && HOUR_SWITCH sw then INIT_DELAY
            else initTimeout s)
           (set_switchTimeout (u8 (switchTimeout s + 1)) s).
Proof.
  unfold alarm_set_branch. open_stmts. rewrite alarm_set_rollover_spec.
  destruct s as [ds st it ms pms sec tk [om tm oh th] a tone led].
  unfold set_accepts, set_action, ramp.
  destruct (MINUTE_SWITCH sw), (HOUR_SWITCH sw); cbn [andb orb negb];
    exec; try reflexivity; try discriminate.
Qed.

Lemma time_set_branch_eq (sw : switches) (s : state) :
  time_set_branch sw s
  = if set_accepts sw s
    then set_initTimeout (ramp (initTimeout s))
           (set_switchTimeout 0
              (set_timeKeeper (set_action sw (gs_timeKeeper s)) s))
    else set_initTimeout
           (if MINUTE_SWITCH sw && HOUR_SWITCH sw then INIT_DELAY
            else initTimeout s)
           (set_switchTimeout (u8 (switchTimeout s + 1)) s).
Proof.
  unfold time_set_branch. open_stmts. rewrite time_set_rollover_spec.
  destruct s as [ds st it ms pms sec [om tm oh th] ak a tone led].
  unfold set_accepts, set_action, ramp.
  destruct (MINUTE_SWITCH sw), (HOUR_SWITCH sw); cbn [andb orb negb];
    exec; try reflexivity; try discriminate.
Qed.

Ltac fields :=
  cbn [one_minutes ten_minutes one_hours ten_hours
       digitSelect switchTimeout initTimeout milliseconds prev_milliseconds
       seconds gs_timeKeeper gs_alarmKeeper alarm_on_off alarm_tone ALARM_LED
       set_one_minutes set_ten_minutes set_one_hours set_ten_hours
       set_digitSelect set_switchTimeout set_initTimeout set_milliseconds
       set_prev_milliseconds set_seconds set_timeKeeper set_alarmKeeper
       set_alarm_on_off set_alarm_tone set_ALARM_LED tone_view fst snd] in *.

Lemma tone_sequence_eq (s : state) :
  tone_sequence s
  = set_alarm_tone (snd (tone_next (tone_view s)))
      (set_prev_milliseconds (snd (fst (tone_next (tone_view s)))) s).
Proof.
  destruct s as [ds st it ms pms sec tk ak a tone led].
  unfold tone_sequence, tone_next, tone_view.
  exec; try reflexivity; try discriminate.
Qed.

Lemma control_isr_eq (sw : switches) (s : state) :
  control_isr sw s
  = digit_rotate
      (tone_sequence
         (control_switches sw
            (set_milliseconds (u16 (milliseconds s + 1)) s))).
Proof. reflexivity. Qed.

(** The fields the sequencing of the tone and the rotation of the digit
    leave alone. *)
Lemma control_isr_frame (sw : switches) (s : state) :
  let s1 := control_switches sw
              (set_milliseconds (u16 (milliseconds s + 1)) s) in
  switchTimeout (control_isr sw s) = switchTimeout s1 /\
  initTimeout (control_isr sw s) = initTimeout s1 /\
  gs_timeKeeper (control_isr sw s) = gs_timeKeeper s1 /\
  gs_alarmKeeper (control_isr sw s) = gs_alarmKeeper s1 /\
  alarm_on_off (control_isr sw s) = alarm_on_off s1 /\
  seconds (control_isr sw s) = seconds s1 /\
  tone_view (control_isr sw s) = tone_next (tone_view s1).
Proof.
  intros s1. rewrite control_isr_eq. fold s1. clearbody s1.
  rewrite tone_sequence_eq. unfold digit_rotate.
  destruct s1 as [ds st it ms pms sec tk ak a tone led].
  unfold tone_view, tone_next, fst, snd.
  exec; repeat split; reflexivity.
Qed.

Lemma control_switches_alarm (sw : switches) (s : state) :
  ALARM_SWITCH sw = false -> control_switches sw s = alarm_switch_branch s.
Proof. intros H. unfold control_switches, ifte. now rewrite H. Qed.

Lemma control_switches_set_a (sw : switches) (s : state) :
  ALARM_SWITCH sw = true -> SET_A_SWITCH sw = false ->
  control_switches sw s = alarm_set_branch sw s.
Proof. intros H1 H2. unfold control_switches, ifte. now rewrite H1, H2. Qed.

Lemma control_switches_set_t (sw : switches) (s : state) :
  ALARM_SWITCH sw = true -> SET_A_SWITCH sw = true ->
  SET_T_SWITCH sw = false ->
  control_switches sw s = time_set_branch sw s.
Proof.
  intros H1 H2 H3. unfold control_switches, ifte. now rewrite H1, H2, H3.
Qed.

Lemma control_switches_idle (sw : switches) (s : state) :
  ALARM_SWITCH sw = true -> SET_A_SWITCH sw = true ->
  SET_T_SWITCH sw = true ->
  control_switches sw s = idle_branch s.
Proof.
  intros H1 H2 H3. unfold control_switches, ifte. now rewrite H1, H2, H3.
Qed.

(** One millisecond with the alarm switch pressed. *)
Lemma tick_alarm (sw : switches) (s : state) :
  ALARM_SWITCH sw = false ->
  let c := alarm_count (switchTimeout s) in
  switchTimeout (control_isr sw s) = c /\
  initTimeout (control_isr sw s) = initTimeout s /\
  gs_timeKeeper (control_isr sw s) = gs_timeKeeper s /\
  gs_alarmKeeper (control_isr sw s) = gs_alarmKeeper s /\
  alarm_on_off (control_isr sw s)
  = (if c =? MIN_DELAY then toggle (alarm_on_off s) else alarm_on_off s) /\
  tone_view (control_isr sw s)
  = (if (c =? MIN_DELAY) && (toggle (alarm_on_off s) =? OFF)
     then (u16 (milliseconds s + 1), 0, 0)
     else tone_tick (tone_view s)).
Proof.
  intros Hsw c.
  destruct (control_isr_frame sw s) as (-> & -> & -> & -> & -> & _ & ->).
  rewrite control_switches_alarm by exact Hsw.
  rewrite alarm_switch_branch_eq. fields. fold c.
  destruct (c =? MIN_DELAY); cbn [andb].
  - cbv zeta. destruct (toggle (alarm_on_off s) =? OFF); fields;
      repeat split; reflexivity.
  - fields. repeat split; reflexivity.
Qed.

(** One millisecond in a set mode. *)
Lemma tick_set (sw : switches) (s : state) :
  set_mode sw = true ->
  switchTimeout (control_isr sw s)
  = (if set_accepts sw s then 0 else u8 (switchTimeout s + 1)) /\
  initTimeout (control_isr sw s)
  = (if set_accepts sw s then ramp (initTimeout s)
     else if MINUTE_SWITCH sw && HOUR_SWITCH sw then INIT_DELAY
          else initTimeout s) /\
  selected sw (control_isr sw s)
  = (if set_accepts sw s then set_action sw (selected sw s)
     else selected sw s) /\
  (SET_A_SWITCH sw = false ->
   gs_timeKeeper (control_isr sw s) = gs_timeKeeper s) /\
  (SET_A_SWITCH sw = true ->
   gs_alarmKeeper (control_isr sw s) = gs_alarmKeeper s) /\
  alarm_on_off (control_isr sw s) = alarm_on_off s /\
  tone_view (control_isr sw s) = tone_tick (tone_view s).
Proof.
  intros Hmode. unfold set_mode in Hmode.
  apply andb_true_iff in Hmode. destruct Hmode as [Halarm Hset].
  unfold selected.
  destruct (control_isr_frame sw s) as (-> & -> & -> & -> & -> & _ & ->).
  change (set_accepts sw s)
    with (set_accepts sw (set_milliseconds (u16 (milliseconds s + 1)) s)).
  destruct (SET_A_SWITCH sw) eqn:Ha.
  - destruct (SET_T_SWITCH sw) eqn:Ht; [ discriminate | ].
    rewrite control_switches_set_t by assumption.
    rewrite time_set_branch_eq.
    destruct (set_accepts sw _); fields; repeat split;
      try reflexivity; discriminate.
  - rewrite control_switches_set_a by assumption.
    rewrite alarm_set_branch_eq.
    destruct (set_accepts sw _); fields; repeat split;
      try reflexivity; discriminate.
Qed.

(** One millisecond with no switch pressed. *)
Lemma tick_idle (sw : switches) (s : state) :
  ALARM_SWITCH sw = true -> SET_A_SWITCH sw = true ->
  SET_T_SWITCH sw = true ->
  switchTimeout (control_isr sw s) = 0 /\
  initTimeout (control_isr sw s) = INIT_DELAY /\
  gs_timeKeeper (control_isr sw s) = gs_timeKeeper s /\
  gs_alarmKeeper (control_isr sw s) = gs_alarmKeeper s /\
  alarm_on_off (control_isr sw s) = alarm_on_off s /\
  tone_view (control_isr sw s) = tone_tick (tone_view s).
Proof.
  intros H1 H2 H3.
  destruct (control_isr_frame sw s) as (-> & -> & -> & -> & -> & _ & ->).
  rewrite control_switches_idle by assumption.
  unfold idle_branch, seq. fields. repeat split; reflexivity.
Qed.

(** ** The range invariant *)

Lemma u8_small (x : Z) : 0 <= x < 256 -> u8 x = x.
Proof. intros H. unfold u8. now apply Z.mod_small. Qed.

Ltac range_solve :=
  unfold valid_time in *; fields; bool_to_prop;
  rewrite ?u8_small in * by lia; lia.

Lemma spec_rollover_valid (t : time) :
  0 <= one_minutes t <= 10 -> 0 <= ten_minutes t <= 5 ->
  0 <= one_hours t <= 9 ->
  valid_time (spec_rollover t).
Proof.
  destruct t as [om tm oh th]. fields. intros Hom Htm Hoh.
  unfold spec_rollover, spec_carry_onesMinutes, spec_carry_tensMinutes,
    spec_carry_onesHours, spec_joint_wrap.
  exec; range_solve.
Qed.

Lemma spec_seconds_step_valid (sec : Z) (t : time) :
  valid_time t -> valid_time (snd (spec_seconds_step (sec, t))).
Proof.
  intros (Hom & Htm & Hoh & _). unfold spec_seconds_step.
  destruct (u8 (sec + 1) >? 59); cbn [snd];
    apply spec_rollover_valid; fields; rewrite ?u8_small by lia; lia.
Qed.

Lemma set_action_valid (sw : switches) (t : time) :
  valid_time t -> valid_time (set_action sw t).
Proof.
  destruct t as [om tm oh th]. intros (Hom & Htm & Hoh & _). fields.
  unfold set_action, set_rollover, add_one_hours, add_one_minutes.
  destruct (MINUTE_SWITCH sw), (HOUR_SWITCH sw); exec; range_solve.
Qed.

Lemma timer_isr_valid (sw : switches) (s : state) :
  keepers_valid s -> keepers_valid (timer_isr sw s).
Proof.
  intros [Ht Ha]. unfold keepers_valid.
  destruct (SET_T_SWITCH sw) eqn:Hsw.
  - rewrite (timer_isr_run sw s Hsw).
    match goal with
    | |- context [timer_alarm ?x] =>
        destruct (timer_alarm_clock x) as (_ & -> & -> & _)
    end.
    fields. split; [ now apply spec_seconds_step_valid | exact Ha ].
  - rewrite (timer_isr_hold sw s Hsw). fields. now split.
Qed.

Lemma control_isr_valid (sw : switches) (s : state) :
  keepers_valid s -> keepers_valid (control_isr sw s).
Proof.
  intros [Ht Ha]. unfold keepers_valid.
  destruct (ALARM_SWITCH sw) eqn:Halarm.
  - destruct (SET_A_SWITCH sw) eqn:Hseta.
    + destruct (SET_T_SWITCH sw) eqn:Hsett.
      * destruct (tick_idle sw s Halarm Hseta Hsett)
          as (_ & _ & -> & -> & _). now split.
      * assert (Hmode : set_mode sw = true)
          by (unfold set_mode; now rewrite Halarm, Hseta, Hsett).
        destruct (tick_set sw s Hmode) as (_ & _ & Hsel & _ & Hak & _).
        unfold selected in Hsel. rewrite Hseta in Hsel. cbn [negb] in Hsel.
        rewrite Hsel, (Hak Hseta). split; [ | exact Ha ].
        destruct (set_accepts sw s); [ now apply set_action_valid | exact Ht ].
    + assert (Hmode : set_mode sw = true)
        by (unfold set_mode; now rewrite Halarm, Hseta).
      destruct (tick_set sw s Hmode) as (_ & _ & Hsel & Htk & _).
      unfold selected in Hsel. rewrite Hseta in Hsel. cbn [negb] in Hsel.
      rewrite Hsel, (Htk Hseta). split; [ exact Ht | ].
      destruct (set_accepts sw s); [ now apply set_action_valid | exact Ha ].
  - destruct (tick_alarm sw s Halarm) as (_ & _ & -> & -> & _). now split.
Qed.

Lemma run_valid (es : list event) (s : state) :
  keepers_valid s -> keepers_valid (run es s).
Proof.
  revert s. induction es as [ | e es IH ]; intros s Hs; [ exact Hs | ].
  cbn [run]. apply IH. destruct e as [sw | sw]; cbn [step].
  - now apply control_isr_valid.
  - now apply timer_isr_valid.
Qed.

(** C1: in every state reached from the initial state by millisecond and
    seconds invocations under any switch levels, [gs_timeKeeper] has
    [one_minutes] in 0..9, [ten_minutes] in 0..5, [one_hours] in 0..9 and
    not ([ten_hours >= 2] and [one_hours >= 4]), and [gs_alarmKeeper]
    satisfies the same bounds. *)
Theorem time_always_valid (es : list event) :
  valid_time (gs_timeKeeper (run es init_state)) /\
  valid_time (gs_alarmKeeper (run es init_state)).
Proof.
  apply run_valid. unfold keepers_valid, init_state. fields.
  unfold valid_time, midnight. fields. lia.
Qed.

(** ** The alarm *)

Lemma same_time_refl (t : time) : same_time t t = true.
Proof. unfold same_time. now rewrite !Z.eqb_refl. Qed.

(** What lines 453-471 do when the alarm is on and the two times agree. *)
Lemma timer_alarm_match (s : state) :
  alarm_on_off s = ON -> gs_alarmKeeper s = gs_timeKeeper s ->
  alarm_tone (timer_alarm s)
  = (if seconds s >=? 59 then 0
     else if seconds s =? 0 then 7 else alarm_tone s) /\
  prev_milliseconds (timer_alarm s)
  = (if seconds s >=? 59 then 0
     else if seconds s =? 0 then milliseconds s else prev_milliseconds s) /\
  milliseconds (timer_alarm s) = milliseconds s.
Proof.
  destruct s as [ds st it ms pms sec tk ak a tone led]. fields.
  intros -> ->. unfold timer_alarm. open_stmts. fields.
  rewrite Z.eqb_refl, same_time_refl. open_stmts. fields.
  destruct (sec =? 0); open_stmts; fields;
    destruct (sec >=? 59); fields; repeat split; reflexivity.
Qed.

Lemma spec_rollover_id (t : time) : valid_time t -> spec_rollover t = t.
Proof.
  destruct t as [om tm oh th]. intros (Hom & Htm & Hoh & Hw). fields.
  unfold spec_rollover, spec_carry_onesMinutes, spec_carry_tensMinutes,
    spec_carry_onesHours, spec_joint_wrap.
  exec; try reflexivity; exfalso; bool_to_prop; lia.
Qed.

(** Inside a minute the seconds engine only counts. *)
Lemma spec_seconds_step_inside (sec : Z) (t : time) :
  valid_time t -> 0 <= sec <= 58 ->
  spec_seconds_step (sec, t) = (sec + 1, t).
Proof.
  intros Ht Hsec. unfold spec_seconds_step.
  rewrite u8_small by lia.
  destruct (sec + 1 >? 59) eqn:E; [ bool_to_prop; lia | ].
  now rewrite spec_rollover_id by exact Ht.
Qed.

Lemma timer_isr_inside (sw : switches) (s : state) :
  SET_T_SWITCH sw = true -> alarm_on_off s = ON ->
  valid_time (gs_timeKeeper s) -> gs_alarmKeeper s = gs_timeKeeper s ->
  0 <= seconds s <= 57 ->
  timer_isr sw s = set_seconds (seconds s + 1) s.
Proof.
  intros Hsw Hon Ht Hsame Hsec. rewrite (timer_isr_run sw s Hsw).
  rewrite spec_seconds_step_inside by (assumption || lia). cbn [fst snd].
  destruct s as [ds st it ms pms sec tk ak a tone led]. fields. subst a ak.
  unfold timer_alarm. open_stmts. fields.
  rewrite Z.eqb_refl, same_time_refl. open_stmts. fields.
  destruct (sec + 1 =? 0) eqn:E0; [ bool_to_prop; lia | ].
  open_stmts. fields.
  destruct (sec + 1 >=? 59) eqn:E59; [ bool_to_prop; lia | ].
  reflexivity.
Qed.

Lemma run_seconds_inside (sws : list switches) (s : state) :
  Forall (fun sw => SET_T_SWITCH sw = true) sws ->
  alarm_on_off s = ON ->
  valid_time (gs_timeKeeper s) -> gs_alarmKeeper s = gs_timeKeeper s ->
  0 <= seconds s -> seconds s + Z.of_nat (length sws) <= 58 ->
  run (map Second sws) s
  = set_seconds (seconds s + Z.of_nat (length sws)) s.
Proof.
  intros Hall. revert s.
  induction Hall as [ | sw sws Hsw _ IH ]; intros s Hon Ht Hsame H0 Hlen.
  - cbn [length map run]. rewrite Z.add_0_r. destruct s; reflexivity.
  - cbn [length map run step] in *.
    rewrite (timer_isr_inside sw s) by (assumption || lia).
    rewrite IH; fields; try assumption; try lia.
    destruct s as [ds st it ms pms sec tk ak a tone led].
    unfold set_seconds. fields. f_equal. lia.
Qed.

(** C5, as the routine has it: a seconds-engine invocation with the
    time-set switch released that, with the alarm on, finds the four digits
    of [gs_alarmKeeper] equal to those of [gs_timeKeeper] sets [alarm_tone]
    to 7 and puts [milliseconds] in the tone timestamp when [seconds] is 0,
    and sets [alarm_tone] to 0 when [seconds >= 59]; in between it leaves
    the tone alone.  The values compared are the ones the invocation has
    just computed.  From the first second of the matching minute the next
    58 invocations do not start the tone again, and the 59th stops it. *)
Theorem alarm_evaluation (sw : switches) (sws : list switches) (s : state) :
  SET_T_SWITCH sw = true ->
  Forall (fun sw' => SET_T_SWITCH sw' = true) sws ->
  alarm_on_off s = ON ->
  gs_alarmKeeper (timer_isr sw s) = gs_timeKeeper (timer_isr sw s) ->
  (seconds (timer_isr sw s) = 0 ->
   alarm_tone (timer_isr sw s) = 7 /\
   prev_milliseconds (timer_isr sw s) = milliseconds (timer_isr sw s)) /\
  (seconds (timer_isr sw s) >= 59 -> alarm_tone (timer_isr sw s) = 0) /\
  (0 < seconds (timer_isr sw s) < 59 ->
   alarm_tone (timer_isr sw s) = alarm_tone s /\
   prev_milliseconds (timer_isr sw s) = prev_milliseconds s) /\
  (seconds (timer_isr sw s) = 0 -> valid_time (gs_timeKeeper s) ->
   ((length sws <= 58)%nat ->
    alarm_tone (run (map Second sws) (timer_isr sw s)) = 7 /\
    seconds (run (map Second sws) (timer_isr sw s))
    = Z.of_nat (length sws)) /\
   (length sws = 59%nat ->
    alarm_tone (run (map Second sws) (timer_isr sw s)) = 0)).
Proof.
  intros Hsw Hall Hon Hsame.
  pose proof (spec_seconds_step_valid (seconds s) (gs_timeKeeper s)) as Hval.
  rewrite (timer_isr_run sw s Hsw) in *.
  set (x := set_timeKeeper _ _) in *.
  assert (Hx : gs_timeKeeper x
               = snd (spec_seconds_step (seconds s, gs_timeKeeper s)))
    by reflexivity.
  assert (Hxa : alarm_on_off x = ON) by exact Hon.
  assert (Hxt : alarm_tone x = alarm_tone s) by reflexivity.
  assert (Hxp : prev_milliseconds x = prev_milliseconds s) by reflexivity.
  rewrite <- Hx in Hval. clearbody x.
  destruct (timer_alarm_clock x) as (Hsec & Htk & Hak & Ha).
  rewrite Htk, Hak in Hsame. rewrite Hsec.
  destruct (timer_alarm_match x Hxa Hsame) as (Htone & Hprev & Hms).
  assert (H0 : seconds x = 0 ->
               alarm_tone (timer_alarm x) = 7 /\
               prev_milliseconds (timer_alarm x)
               = milliseconds (timer_alarm x)).
  { intros E. rewrite Htone, Hprev, Hms, E. split; reflexivity. }
  split; [ exact H0 | ]. split; [ | split ].
  - intros E. rewrite Htone.
    destruct (seconds x >=? 59) eqn:G; [ reflexivity | bool_to_prop; lia ].
  - intros E. rewrite Htone, Hprev.
    destruct (seconds x >=? 59) eqn:G; [ bool_to_prop; lia | ].
    destruct (seconds x =? 0) eqn:G0; [ bool_to_prop; lia | ].
    now rewrite Hxt, Hxp.
  - intros E Hvalid. specialize (Hval Hvalid).
    destruct (H0 E) as [Ht7 _].
    assert (Hon' : alarm_on_off (timer_alarm x) = ON) by congruence.
    assert (Hval' : valid_time (gs_timeKeeper (timer_alarm x)))
      by (rewrite Htk; exact Hval).
    assert (Hsame' : gs_alarmKeeper (timer_alarm x)
                     = gs_timeKeeper (timer_alarm x)) by congruence.
    assert (Hsec' : seconds (timer_alarm x) = 0) by congruence.
    split.
    + intros Hlen.
      rewrite (run_seconds_inside sws (timer_alarm x)) by (assumption || lia).
      fields. rewrite Hsec'. split; [ exact Ht7 | lia ].
    + intros Hlen.
      destruct (exists_last (l := sws)) as (front & last & ->);
        [ intros ->; discriminate | ].
      rewrite length_app in Hlen. cbn [length] in Hlen.
      apply Forall_app in Hall. destruct Hall as [Hfront Hlast].
      inversion Hlast as [ | ? ? Hl _ ]; subst.
      rewrite map_app. cbn [map].
      assert (Happ : forall es1 es2 st,
                 run (es1 ++ es2) st = run es2 (run es1 st)).
      { induction es1 as [ | e es1 IH ]; intros es2 st;
          [ reflexivity | cbn [app run]; apply IH ]. }
      rewrite Happ. cbn [run].
      rewrite (run_seconds_inside front (timer_alarm x))
        by (assumption || lia).
      rewrite Hsec'. cbn [step].
      rewrite (timer_isr_run last _ Hl). fields.
      rewrite spec_seconds_step_inside by (assumption || lia).
      cbn [fst snd].
      match goal with
      | |- alarm_tone (timer_alarm ?y) = 0 =>
          destruct (timer_alarm_match y) as (-> & _);
            [ exact Hon' | exact Hsame' | ]
      end.
      fields.
      destruct (0 + Z.of_nat (length front) + 1 >=? 59) eqn:G;
        [ reflexivity | bool_to_prop; lia ].
Qed.

Lemma alarm_evaluation_witness :
  let sw := released in
  let sws := [released; released; released] in
  let s := mkState 1 0 125 1234 0 59 (mkTime 9 5 6 0) (mkTime 0 0 7 0)
             ON 0 false in
  let s58 := mkState 1 0 125 1234 900 58 (mkTime 0 0 7 0) (mkTime 0 0 7 0)
               ON 3 false in
  (alarm_tone (timer_isr sw s) = 7 /\
   prev_milliseconds (timer_isr sw s) = 1234) /\
  (alarm_tone (run (map Second sws) (timer_isr sw s)) = 7 /\
   seconds (run (map Second sws) (timer_isr sw s)) = 3) /\
  alarm_tone (timer_isr sw s58) = 0.
Proof.
  intros sw sws s s58.
  assert (Hall : Forall (fun sw' => SET_T_SWITCH sw' = true) sws)
    by (repeat constructor).
  assert (Hval : valid_time (gs_timeKeeper s))
    by (unfold valid_time; cbn; lia).
  destruct (alarm_evaluation sw sws s eq_refl Hall eq_refl eq_refl)
    as (H0 & _ & _ & Hrun).
  destruct (alarm_evaluation sw sws s58 eq_refl Hall eq_refl eq_refl)
    as (_ & H59 & _).
  split; [ exact (H0 eq_refl) | ].
  split; [ | apply H59; vm_compute; discriminate ].
  destruct (Hrun eq_refl Hval) as [Hin _].
  apply Hin. cbn. lia.
Defined.

(** The claim C5 as it is written, for every invocation, fails: with the
    time-set switch pressed the routine returns before it looks at the
    alarm, so an invocation with the alarm on, the two times equal and
    [seconds] at 0 before and after it leaves [alarm_tone] at 0. *)
Lemma alarm_evaluation_counterexample :
  let sw := mkSwitches true false true true true in
  let s := mkState 1 0 125 1234 0 0 (mkTime 0 0 7 0) (mkTime 0 0 7 0)
             ON 0 false in
  (alarm_on_off s = ON /\ gs_alarmKeeper s = gs_timeKeeper s /\
   seconds s = 0) /\
  (alarm_on_off (timer_isr sw s) = ON /\
   gs_alarmKeeper (timer_isr sw s) = gs_timeKeeper (timer_isr sw s) /\
   seconds (timer_isr sw s) = 0) /\
  alarm_tone (timer_isr sw s) = 0 /\
  alarm_tone (timer_isr sw s) <> 7 /\
  prev_milliseconds (timer_isr sw s) <> milliseconds (timer_isr sw s).
Proof.
  intros sw s.
  rewrite (timer_isr_hold sw s eq_refl).
  split; [ repeat split; reflexivity | ].
  split; [ repeat split; reflexivity | ].
  split; [ reflexivity | ]. split; cbn; discriminate.
Qed.

(** ** Manual set actions *)

(** C10: in a set mode, with the minute and the hour switch both pressed
    at the millisecond where the hold counter exceeds the repeat threshold,
    the one accepted action adds 1 to [one_minutes] and 1 to [one_hours]
    of the selected structure before the one rollover pass, clears the
    hold counter once, and leaves the other structure alone. *)
Theorem both_increments_one_action (sw : switches) (s : state) :
  set_mode sw = true ->
  MINUTE_SWITCH sw = false -> HOUR_SWITCH sw = false ->
  u8 (switchTimeout s + 1) > initTimeout s ->
  selected sw (control_isr sw s)
  = set_rollover
      (mkTime (u8 (one_minutes (selected sw s) + 1))
         (ten_minutes (selected sw s))
         (u8 (one_hours (selected sw s) + 1))
         (ten_hours (selected sw s))) /\
  switchTimeout (control_isr sw s) = 0 /\
  initTimeout (control_isr sw s) = ramp (initTimeout s) /\
  (SET_A_SWITCH sw = false ->
   gs_timeKeeper (control_isr sw s) = gs_timeKeeper s) /\
  (SET_A_SWITCH sw = true ->
   gs_alarmKeeper (control_isr sw s) = gs_alarmKeeper s) /\
  alarm_on_off (control_isr sw s) = alarm_on_off s.
Proof.
  intros Hmode Hmin Hhour Hgt.
  assert (Hacc : set_accepts sw s = true).
  { unfold set_accepts. rewrite Hmin, Hhour. cbn [negb orb andb].
    rewrite Z.gtb_ltb. apply Z.ltb_lt. lia. }
  destruct (tick_set sw s Hmode) as (H1 & H2 & H3 & H4 & H5 & H6 & _).
  rewrite Hacc in H1, H2, H3.
  rewrite H1, H2, H3, H6. unfold set_action. rewrite Hmin, Hhour.
  repeat split; assumption.
Qed.

Lemma both_increments_one_action_witness :
  let sw := mkSwitches false true false false true in
  let s := mkState 2 125 125 40 0 7 (mkTime 3 2 1 1) (mkTime 9 5 9 1)
             OFF 0 true in
  gs_alarmKeeper (control_isr sw s) = mkTime 0 0 0 2 /\
  switchTimeout (control_isr sw s) = 0 /\
  gs_timeKeeper (control_isr sw s) = mkTime 3 2 1 1.
Proof.
  intros sw s.
  assert (Hgt : u8 (switchTimeout s + 1) > initTimeout s)
    by (vm_compute; reflexivity).
  destruct (both_increments_one_action sw s eq_refl eq_refl eq_refl Hgt)
    as (H1 & H2 & _ & H4 & _).
  split; [ exact H1 | ]. split; [ exact H2 | exact (H4 eq_refl) ].
Defined.

(** The manual rollover against the rollover of section 4.2, on a valid
    time after the additions of lines 282-285. *)
Lemma set_action_spec (sw : switches) (t : time) :
  valid_time t ->
  ~ (MINUTE_SWITCH sw = false /\ one_minutes t = 9 /\ ten_minutes t = 5) ->
  set_action sw t
  = spec_rollover
      (add_one_hours (HOUR_SWITCH sw) (add_one_minutes (MINUTE_SWITCH sw) t)).
Proof.
  destruct t as [om tm oh th]. intros (Hom & Htm & Hoh & Hw) Hno. fields.
  unfold set_action, set_rollover, spec_rollover, spec_carry_onesMinutes,
    spec_carry_tensMinutes, spec_carry_onesHours, spec_joint_wrap,
    add_one_hours, add_one_minutes.
  destruct (MINUTE_SWITCH sw), (HOUR_SWITCH sw);
    exec; try reflexivity; exfalso; bool_to_prop;
    rewrite ?u8_small in * by lia; try lia;
    apply Hno; repeat split; lia.
Qed.

Lemma set_action_no_carry (sw : switches) (t : time) :
  valid_time t ->
  MINUTE_SWITCH sw = false -> one_minutes t = 9 -> ten_minutes t = 5 ->
  set_action sw t
  = spec_rollover
      (add_one_hours (HOUR_SWITCH sw)
         (mkTime 0 0 (one_hours t) (ten_hours t))).
Proof.
  destruct t as [om tm oh th]. intros (Hom & Htm & Hoh & Hw) Hmin H9 H5.
  fields. subst om tm.
  unfold set_action, set_rollover, spec_rollover, spec_carry_onesMinutes,
    spec_carry_tensMinutes, spec_carry_onesHours, spec_joint_wrap,
    add_one_hours, add_one_minutes.
  rewrite Hmin.
  destruct (HOUR_SWITCH sw);
    exec; try reflexivity; exfalso; bool_to_prop;
    rewrite ?u8_small in * by lia; try lia; discriminate.
Qed.

(** C2, as the routine has it: an accepted manual increment puts the
    rollover of section 4.2 on the selected structure, except that the
    overflow of the tens of minutes is not carried into the hours.  When a
    minute increment takes the minutes past 59 they become 00 and the hours
    change only by what the hour switch adds (19:59 and one manual minute
    give 19:00); in every other case the result is the rollover of section
    4.2.  The alarm time and the current time are treated alike. *)
Theorem manual_set_rollover (sw : switches) (s : state) :
  set_mode sw = true -> set_accepts sw s = true ->
  valid_time (selected sw s) ->
  (MINUTE_SWITCH sw = false -> one_minutes (selected sw s) = 9 ->
   ten_minutes (selected sw s) = 5 ->
   selected sw (control_isr sw s)
   = spec_rollover
       (add_one_hours (HOUR_SWITCH sw)
          (mkTime 0 0 (one_hours (selected sw s))
             (ten_hours (selected sw s))))) /\
  (~ (MINUTE_SWITCH sw = false /\ one_minutes (selected sw s) = 9 /\
      ten_minutes (selected sw s) = 5) ->
   selected sw (control_isr sw s)
   = spec_rollover
       (add_one_hours (HOUR_SWITCH sw)
          (add_one_minutes (MINUTE_SWITCH sw) (selected sw s)))).
Proof.
  intros Hmode Hacc Hval.
  destruct (tick_set sw s Hmode) as (_ & _ & -> & _). rewrite Hacc. split.
  - intros Hmin H9 H5. now apply set_action_no_carry.
  - intros Hno. now apply set_action_spec.
Qed.

Lemma manual_set_rollover_witness :
  let set_t_minute := mkSwitches true false true false true in
  let set_a_minute := mkSwitches false true true false true in
  let set_t_hour := mkSwitches true false false true true in
  let s := mkState 1 125 125 0 0 30 (mkTime 9 5 9 1) (mkTime 9 5 9 1)
             OFF 0 true in
  gs_timeKeeper (control_isr set_t_minute s) = mkTime 0 0 9 1 /\
  gs_alarmKeeper (control_isr set_a_minute s) = mkTime 0 0 9 1 /\
  gs_timeKeeper (control_isr set_t_hour s) = mkTime 9 5 0 2.
Proof.
  intros set_t_minute set_a_minute set_t_hour s.
  assert (Hval : valid_time (mkTime 9 5 9 1))
    by (unfold valid_time; cbn; lia).
  split; [ | split ].
  - destruct (manual_set_rollover set_t_minute s eq_refl eq_refl Hval)
      as [H _].
    exact (H eq_refl eq_refl eq_refl).
  - destruct (manual_set_rollover set_a_minute s eq_refl eq_refl Hval)
      as [H _].
    exact (H eq_refl eq_refl eq_refl).
  - destruct (manual_set_rollover set_t_hour s eq_refl eq_refl Hval)
      as [_ H].
    apply H. cbn. intros (H1 & _). discriminate.
Defined.

(** The claim C2 as it is written fails: at 19:59 an accepted manual
    minute gives 19:00, where the rollover of section 4.2 gives 20:00; so
    for the alarm time. *)
Lemma manual_minute_carry_counterexample :
  let set_t_minute := mkSwitches true false true false true in
  let set_a_minute := mkSwitches false true true false true in
  let s := mkState 1 125 125 0 0 30 (mkTime 9 5 9 1) (mkTime 9 5 9 1)
             OFF 0 true in
  valid_time (gs_timeKeeper s) /\ valid_time (gs_alarmKeeper s) /\
  set_mode set_t_minute = true /\ set_accepts set_t_minute s = true /\
  set_mode set_a_minute = true /\ set_accepts set_a_minute s = true /\
  spec_rollover (add_one_minutes false (mkTime 9 5 9 1)) = mkTime 0 0 0 2 /\
  gs_timeKeeper (control_isr set_t_minute s) = mkTime 0 0 9 1 /\
  gs_alarmKeeper (control_isr set_a_minute s) = mkTime 0 0 9 1 /\
  gs_timeKeeper (control_isr set_t_minute s)
  <> spec_rollover (add_one_minutes false (gs_timeKeeper s)) /\
  gs_alarmKeeper (control_isr set_a_minute s)
  <> spec_rollover (add_one_minutes false (gs_alarmKeeper s)).
Proof.
  intros set_t_minute set_a_minute s.
  assert (Hval : valid_time (mkTime 9 5 9 1))
    by (unfold valid_time; cbn; lia).
  split; [ exact Hval | ]. split; [ exact Hval | ].
  do 7 (split; [ reflexivity | ]).
  split; vm_compute; discriminate.
Qed.

(** ** The alarm switch held *)

Lemma run_app (es1 es2 : list event) (s : state) :
  run (es1 ++ es2) s = run es2 (run es1 s).
Proof.
  revert s. induction es1 as [ | e es1 IH ]; intros s;
    [ reflexivity | cbn [app run]; apply IH ].
Qed.

Lemma toggle_changes (a : Z) : toggle a <> a.
Proof.
  unfold toggle, ON, OFF. destruct (a =? 1) eqn:E; bool_to_prop; lia.
Qed.

Lemma alarm_count_low (c : Z) :
  0 <= c <= 75 -> alarm_count c = c + 1.
Proof.
  intros H. unfold alarm_count, MIN_DELAY.
  destruct (c >? 75) eqn:E; [ bool_to_prop; lia | ].
  apply u8_small. lia.
Qed.

Lemma alarm_count_high (c : Z) : 75 < c -> alarm_count c = c.
Proof.
  intros H. unfold alarm_count, MIN_DELAY.
  destruct (c >? 75) eqn:E; [ reflexivity | bool_to_prop; lia ].
Qed.

(** The alarm flag after the alarm switch has been held for a while: it is
    toggled when the hold counter comes to 75, and that is all. *)
Lemma run_alarm_held (sws : list switches) (s : state) :
  Forall (fun sw => ALARM_SWITCH sw = false) sws ->
  0 <= switchTimeout s ->
  alarm_on_off (run (map Millisecond sws) s)
  = (if (switchTimeout s <? 75)
        && (75 - switchTimeout s <=? Z.of_nat (length sws))
     then toggle (alarm_on_off s) else alarm_on_off s) /\
  gs_timeKeeper (run (map Millisecond sws) s) = gs_timeKeeper s /\
  gs_alarmKeeper (run (map Millisecond sws) s) = gs_alarmKeeper s.
Proof.
  intros Hall. revert s.
  induction Hall as [ | sw sws Hsw _ IH ]; intros s Hc.
  - cbn [map run length]. 
    destruct (switchTimeout s <? 75) eqn:E1; cbn [andb];
      [ | repeat split; reflexivity ].
    destruct (75 - switchTimeout s <=? Z.of_nat 0) eqn:E2;
      [ bool_to_prop; lia | repeat split; reflexivity ].
  - cbn [map run step length].
    destruct (tick_alarm sw s Hsw) as (Hst & _ & Htk & Hak & Ha & _).
    destruct (IH (control_isr sw s)) as (IHa & IHtk & IHak).
    { rewrite Hst. unfold alarm_count.
      destruct (switchTimeout s >? MIN_DELAY); [ exact Hc | ].
      unfold u8. apply Z.mod_pos_bound. lia. }
    rewrite IHa, IHtk, IHak, Htk, Hak, Hst, Ha.
    split; [ | split; reflexivity ].
    destruct (Z_lt_le_dec 75 (switchTimeout s)) as [Hhigh | Hlow].
    + rewrite alarm_count_high by exact Hhigh.
      unfold MIN_DELAY.
      destruct (switchTimeout s =? 75) eqn:E; [ bool_to_prop; lia | ].
      destruct (switchTimeout s <? 75) eqn:E1; [ bool_to_prop; lia | ].
      reflexivity.
    + rewrite alarm_count_low by lia. unfold MIN_DELAY.
      destruct (switchTimeout s + 1 =? 75) eqn:E;
        destruct (switchTimeout s + 1 <? 75) eqn:E1;
        destruct (switchTimeout s <? 75) eqn:E2;
        cbn [andb]; bool_to_prop; try lia; try reflexivity.
      * destruct (75 - switchTimeout s <=? Z.of_nat (S (length sws))) eqn:E3;
          [ reflexivity | bool_to_prop; lia ].
      * destruct (75 - (switchTimeout s + 1) <=? Z.of_nat (length sws)) eqn:E3;
          destruct (75 - switchTimeout s <=? Z.of_nat (S (length sws))) eqn:E4;
          bool_to_prop; try lia; reflexivity.
Qed.

(** C6, as the routine has it: while the alarm switch stays pressed
    [alarm_on_off] is toggled at most once, at the millisecond where the
    hold counter [switchTimeout], shared by all the switches, comes to 75.
    With the counter at [c] when the press begins this is the millisecond
    [75 - c] of the press if [c < 75] (the 75th after an idle millisecond),
    and never if a set switch held just before has left [c >= 75].  A
    toggle that turns the alarm off sets [alarm_tone] to 0 in the same
    millisecond, whatever the tone timing. *)
Theorem alarm_toggle_once (sws : list switches) (s : state) :
  Forall (fun sw => ALARM_SWITCH sw = false) sws ->
  0 <= switchTimeout s ->
  alarm_on_off (run (map Millisecond sws) s)
  = (if (switchTimeout s <? 75)
        && (75 - switchTimeout s <=? Z.of_nat (length sws))
     then toggle (alarm_on_off s) else alarm_on_off s) /\
  toggle (alarm_on_off s) <> alarm_on_off s /\
  (forall sw, ALARM_SWITCH sw = false ->
     alarm_on_off (control_isr sw s) <> alarm_on_off s ->
     alarm_on_off (control_isr sw s) = OFF ->
     alarm_tone (control_isr sw s) = 0).
Proof.
  intros Hall Hc.
  split; [ exact (proj1 (run_alarm_held sws s Hall Hc)) | ].
  split; [ apply toggle_changes | ].
  intros sw Hsw Hflip Hoff.
  destruct (tick_alarm sw s Hsw) as (_ & _ & _ & _ & Ha & Htone).
  rewrite Ha in Hflip, Hoff.
  destruct (alarm_count (switchTimeout s) =? MIN_DELAY);
    [ | now contradiction Hflip ].
  rewrite Hoff in Htone. cbn [andb] in Htone.
  change (OFF =? OFF) with true in Htone. cbv iota in Htone.
  unfold tone_view in Htone. congruence.
Qed.

Lemma hold_map (n : nat) (sw : switches) (s : state) :
  hold n sw s = run (map Millisecond (repeat sw n)) s.
Proof. unfold hold. now rewrite map_repeat. Qed.

Lemma hold_S (n : nat) (sw : switches) (s : state) :
  hold (S n) sw s = control_isr sw (hold n sw s).
Proof.
  unfold hold. cbn [repeat]. rewrite repeat_cons, run_app. reflexivity.
Qed.

Lemma hold_add (n m : nat) (sw : switches) (s : state) :
  hold (n + m) sw s = hold m sw (hold n sw s).
Proof. unfold hold. now rewrite repeat_app, run_app. Qed.

Lemma Forall_repeat {A : Type} (P : A -> Prop) (x : A) (n : nat) :
  P x -> Forall P (repeat x n).
Proof.
  intros H. apply Forall_forall. intros y Hy.
  apply repeat_spec in Hy. now subst y.
Qed.

Lemma alarm_toggle_once_witness :
  let sw := mkSwitches true true true true false in
  let s74 := mkState 1 74 125 500 400 10 midnight midnight ON 5 false in
  alarm_on_off (run (map Millisecond (repeat sw 74)) init_state) = OFF /\
  alarm_on_off (run (map Millisecond (repeat sw 75)) init_state) = ON /\
  alarm_on_off (run (map Millisecond (repeat sw 900)) init_state) = ON /\
  alarm_on_off (control_isr sw s74) = OFF /\
  alarm_tone (control_isr sw s74) = 0.
Proof.
  intros sw s74.
  assert (Hall : forall n, Forall (fun sw' => ALARM_SWITCH sw' = false)
                             (repeat sw n))
    by (intros n; now apply Forall_repeat).
  assert (H0 : 0 <= switchTimeout init_state) by (cbn; lia).
  assert (H74 : 0 <= switchTimeout s74) by (cbn; lia).
  split.
  { exact (proj1 (alarm_toggle_once _ init_state (Hall 74%nat) H0)). }
  split.
  { exact (proj1 (alarm_toggle_once _ init_state (Hall 75%nat) H0)). }
  split.
  { exact (proj1 (alarm_toggle_once _ init_state (Hall 900%nat) H0)). }
  destruct (alarm_toggle_once [] s74 (Forall_nil _) H74) as (_ & _ & H).
  assert (Hoff : alarm_on_off (control_isr sw s74) = OFF) by reflexivity.
  split; [ exact Hoff | ].
  apply H; [ reflexivity | | exact Hoff ].
  rewrite Hoff. discriminate.
Defined.

(** The claim C6 as it is written fails: the hold counter is shared, so an
    alarm switch pressed right after the time set switch has been held for
    100 ms finds the counter at 100, past 75, and [alarm_on_off] does not
    change however long the alarm switch stays pressed. *)
Lemma alarm_toggle_counterexample :
  let set_t := mkSwitches true false true true true in
  let alarm := mkSwitches true true true true false in
  let s := hold 100 set_t init_state in
  switchTimeout s = 100 /\ alarm_on_off s = OFF /\
  forall n, alarm_on_off (hold n alarm s) = OFF.
Proof.
  intros set_t alarm s.
  assert (Hst : switchTimeout s = 100) by (vm_compute; reflexivity).
  assert (Ha : alarm_on_off s = OFF) by (vm_compute; reflexivity).
  split; [ exact Hst | ]. split; [ exact Ha | ].
  intros n. rewrite hold_map.
  destruct (run_alarm_held (repeat alarm n) s) as (-> & _).
  - now apply Forall_repeat.
  - rewrite Hst. lia.
  - rewrite Hst, Ha. reflexivity.
Qed.

(** ** Presses shorter than the threshold *)

Lemma run_idle (sws : list switches) (s : state) :
  Forall (fun sw => ALARM_SWITCH sw = true /\ SET_A_SWITCH sw = true
                    /\ SET_T_SWITCH sw = true) sws ->
  gs_timeKeeper (run (map Millisecond sws) s) = gs_timeKeeper s /\
  gs_alarmKeeper (run (map Millisecond sws) s) = gs_alarmKeeper s /\
  alarm_on_off (run (map Millisecond sws) s) = alarm_on_off s /\
  tone_view (run (map Millisecond sws) s)
  = Nat.iter (length sws) tone_tick (tone_view s).
Proof.
  intros Hall. revert s.
  induction Hall as [ | sw sws (H1 & H2 & H3) _ IH ]; intros s.
  - repeat split; reflexivity.
  - cbn [map run step length]. rewrite Nat.iter_succ_r.
    destruct (tick_idle sw s H1 H2 H3) as (_ & _ & Htk & Hak & Ha & Htone).
    destruct (IH (control_isr sw s)) as (-> & -> & -> & ->).
    rewrite Htk, Hak, Ha, Htone. repeat split; reflexivity.
Qed.

(** The alarm switch pressed while the hold counter stays below 75. *)
Lemma run_alarm_quiet (sws : list switches) (s : state) :
  Forall (fun sw => ALARM_SWITCH sw = false) sws ->
  0 <= switchTimeout s ->
  switchTimeout s + Z.of_nat (length sws) < 75 ->
  switchTimeout (run (map Millisecond sws) s)
  = switchTimeout s + Z.of_nat (length sws) /\
  initTimeout (run (map Millisecond sws) s) = initTimeout s /\
  tone_view (run (map Millisecond sws) s)
  = Nat.iter (length sws) tone_tick (tone_view s).
Proof.
  intros Hall. revert s.
  induction Hall as [ | sw sws Hsw _ IH ]; intros s Hc Hlen.
  - cbn [map run length Nat.iter]. rewrite Z.add_0_r.
    repeat split; reflexivity.
  - cbn [map run step length] in *. rewrite Nat.iter_succ_r.
    destruct (tick_alarm sw s Hsw) as (Hst & Hit & _ & _ & _ & Htone).
    rewrite alarm_count_low in Hst, Htone by lia.
    unfold MIN_DELAY in Htone.
    destruct (switchTimeout s + 1 =? 75) eqn:E; [ bool_to_prop; lia | ].
    cbn [andb] in Htone.
    destruct (IH (control_isr sw s)) as (-> & -> & ->);
      rewrite ?Hst; try lia.
    rewrite Hit, Htone. repeat split; try reflexivity. lia.
Qed.

(** A set switch pressed while the hold counter stays within the initial
    threshold: whatever the minute and hour switches do, nothing is
    accepted. *)
Lemma run_set_quiet (sws : list switches) (s : state) :
  Forall (fun sw => set_mode sw = true) sws ->
  0 <= switchTimeout s -> initTimeout s = INIT_DELAY ->
  switchTimeout s + Z.of_nat (length sws) <= 125 ->
  switchTimeout (run (map Millisecond sws) s)
  = switchTimeout s + Z.of_nat (length sws) /\
  initTimeout (run (map Millisecond sws) s) = INIT_DELAY /\
  gs_timeKeeper (run (map Millisecond sws) s) = gs_timeKeeper s /\
  gs_alarmKeeper (run (map Millisecond sws) s) = gs_alarmKeeper s /\
  alarm_on_off (run (map Millisecond sws) s) = alarm_on_off s /\
  tone_view (run (map Millisecond sws) s)
  = Nat.iter (length sws) tone_tick (tone_view s).
Proof.
  intros Hall. revert s.
  induction Hall as [ | sw sws Hsw _ IH ]; intros s Hc Hit Hlen.
  - cbn [map run length Nat.iter]. rewrite Z.add_0_r.
    repeat split; try reflexivity. exact Hit.
  - cbn [map run step length] in *. rewrite Nat.iter_succ_r.
    assert (Hacc : set_accepts sw s = false).
    { unfold set_accepts. rewrite Hit, u8_small by lia.
      assert (E : (switchTimeout s + 1 >? INIT_DELAY) = false)
        by (unfold INIT_DELAY; rewrite Z.gtb_ltb; apply Z.ltb_ge; lia).
      destruct (MINUTE_SWITCH sw && HOUR_SWITCH sw); rewrite E;
        apply andb_false_r. }
    destruct (tick_set sw s Hsw) as (Hst & Hit' & Hsel & Htk & Hak & Ha & Ht).
    rewrite Hacc in Hst, Hit', Hsel. rewrite u8_small in Hst by lia.
    assert (Hit1 : initTimeout (control_isr sw s) = INIT_DELAY).
    { rewrite Hit'. now destruct (MINUTE_SWITCH sw && HOUR_SWITCH sw). }
    assert (Hkeep : gs_timeKeeper (control_isr sw s) = gs_timeKeeper s /\
                    gs_alarmKeeper (control_isr sw s) = gs_alarmKeeper s).
    { unfold selected in Hsel. destruct (SET_A_SWITCH sw); cbn [negb] in Hsel.
      - split; [ exact Hsel | now apply Hak ].
      - split; [ now apply Htk | exact Hsel ]. }
    destruct Hkeep as [Hk1 Hk2].
    destruct (IH (control_isr sw s)) as (-> & -> & -> & -> & -> & ->);
      rewrite ?Hst; try lia; try exact Hit1.
    rewrite Hk1, Hk2, Ha, Ht. repeat split; try reflexivity. lia.
Qed.

Lemma hold_released_tone (n : nat) (s : state) :
  tone_view (hold n released s) = Nat.iter n tone_tick (tone_view s).
Proof.
  rewrite hold_map.
  destruct (run_idle (repeat released n) s) as (_ & _ & _ & ->).
  - apply Forall_repeat. repeat split; reflexivity.
  - now rewrite repeat_length.
Qed.

Lemma control_isr_one_action (sw : switches) (s : state) :
  at_most_one_action sw s (control_isr sw s).
Proof.
  unfold at_most_one_action.
  destruct (ALARM_SWITCH sw) eqn:Halarm.
  - destruct (SET_A_SWITCH sw) eqn:Hseta.
    + destruct (SET_T_SWITCH sw) eqn:Hsett.
      * destruct (tick_idle sw s Halarm Hseta Hsett)
          as (_ & _ & -> & -> & -> & _).
        left. repeat split; reflexivity.
      * assert (Hmode : set_mode sw = true)
          by (unfold set_mode; now rewrite Halarm, Hseta, Hsett).
        destruct (tick_set sw s Hmode) as (_ & _ & Hsel & _ & Hak & -> & _).
        unfold selected in Hsel. rewrite Hseta in Hsel. cbn [negb] in Hsel.
        rewrite Hsel, (Hak Hseta).
        destruct (set_accepts sw s);
          [ do 3 right | left ]; repeat split; reflexivity.
    + assert (Hmode : set_mode sw = true)
        by (unfold set_mode; now rewrite Halarm, Hseta).
      destruct (tick_set sw s Hmode) as (_ & _ & Hsel & Htk & _ & -> & _).
      unfold selected in Hsel. rewrite Hseta in Hsel. cbn [negb] in Hsel.
      rewrite Hsel, (Htk Hseta).
      destruct (set_accepts sw s);
        [ do 2 right; left | left ]; repeat split; reflexivity.
  - destruct (tick_alarm sw s Halarm) as (_ & _ & -> & -> & -> & _).
    destruct (alarm_count (switchTimeout s) =? MIN_DELAY);
      [ right; left | left ]; repeat split; reflexivity.
Qed.

(** C4, as the routine has it, for a press that begins with the debounce
    variables at their idle values ([switchTimeout = 0],
    [initTimeout = 125], as a millisecond with no switch pressed leaves
    them).  The alarm switch pressed for fewer than 75 ms, or a set mode
    held for at most 125 ms whatever the minute and hour switches do,
    changes no digit and not the alarm flag and leaves the tone as the
    same time without a press does.  The alarm switch pressed for exactly
    75 ms toggles the alarm flag once.  In a set mode the first increment
    is accepted at the 126th ms, when the hold counter exceeds the
    threshold of 125, and it is one set action.  No invocation performs
    more than one action. *)
Theorem debounce_from_idle
    (sws : list switches) (sw : switches) (s : state) :
  switchTimeout s = 0 -> initTimeout s = INIT_DELAY ->
  (Forall (fun x => ALARM_SWITCH x = false) sws ->
   ((length sws < 75)%nat -> no_effect sws s) /\
   (length sws = 75%nat ->
    alarm_on_off (run (map Millisecond sws) s) = toggle (alarm_on_off s) /\
    gs_timeKeeper (run (map Millisecond sws) s) = gs_timeKeeper s /\
    gs_alarmKeeper (run (map Millisecond sws) s) = gs_alarmKeeper s))
  /\
  (Forall (fun x => set_mode x = true) sws ->
   ((length sws <= 125)%nat -> no_effect sws s) /\
   (length sws = 125%nat -> set_mode sw = true ->
    MINUTE_SWITCH sw = false \/ HOUR_SWITCH sw = false ->
    selected sw (run (map Millisecond (sws ++ [sw])) s)
    = set_action sw (selected sw s) /\
    (SET_A_SWITCH sw = false ->
     gs_timeKeeper (run (map Millisecond (sws ++ [sw])) s)
     = gs_timeKeeper s) /\
    (SET_A_SWITCH sw = true ->
     gs_alarmKeeper (run (map Millisecond (sws ++ [sw])) s)
     = gs_alarmKeeper s) /\
    alarm_on_off (run (map Millisecond (sws ++ [sw])) s) = alarm_on_off s))
  /\
  (forall s0, at_most_one_action sw s0 (control_isr sw s0)).
Proof.
  intros Hst Hit. split; [ | split ].
  - intros Hall.
    assert (Hc : 0 <= switchTimeout s) by lia.
    destruct (run_alarm_held sws s Hall Hc) as (Ha & Htk & Hak).
    rewrite Hst in Ha. split.
    + intros Hlen. unfold no_effect.
      destruct (run_alarm_quiet sws s Hall Hc) as (_ & _ & Htone);
        [ lia | ].
      rewrite Htk, Hak, Ha, Htone, hold_released_tone.
      destruct (75 - 0 <=? Z.of_nat (length sws)) eqn:E;
        [ bool_to_prop; lia | ].
      repeat split; reflexivity.
    + intros Hlen. rewrite Htk, Hak, Ha, Hlen. repeat split; reflexivity.
  - intros Hall.
    assert (Hc : 0 <= switchTimeout s) by lia.
    split.
    + intros Hlen. unfold no_effect.
      destruct (run_set_quiet sws s Hall Hc Hit)
        as (_ & _ & -> & -> & -> & ->); [ lia | ].
      rewrite hold_released_tone. repeat split; reflexivity.
    + intros Hlen Hmode Hpress.
      destruct (run_set_quiet sws s Hall Hc Hit)
        as (Hst' & Hit' & Htk & Hak & Ha & _); [ lia | ].
      rewrite map_app, run_app. cbn [map run step].
      set (s1 := run (map Millisecond sws) s) in *.
      assert (Hacc : set_accepts sw s1 = true).
      { unfold set_accepts. rewrite Hst', Hit', Hst, Hlen.
        destruct Hpress as [-> | ->];
          destruct (MINUTE_SWITCH sw), (HOUR_SWITCH sw); reflexivity. }
      destruct (tick_set sw s1 Hmode)
        as (_ & _ & Hsel & Htk1 & Hak1 & Ha1 & _).
      rewrite Hacc in Hsel. rewrite Hsel, Ha1, Ha.
      assert (Hs : selected sw s1 = selected sw s)
        by (unfold selected; now rewrite Htk, Hak).
      rewrite Hs. split; [ reflexivity | ].
      split; [ intros H; now rewrite (Htk1 H) | ].
      split; [ intros H; now rewrite (Hak1 H) | reflexivity ].
  - intros s0. apply control_isr_one_action.
Qed.

Lemma debounce_from_idle_witness :
  let alarm := mkSwitches true true true true false in
  let set_t := mkSwitches true false true true true in
  let set_t_minute := mkSwitches true false true false true in
  no_effect (repeat alarm 74) init_state /\
  alarm_on_off (run (map Millisecond (repeat alarm 75)) init_state) = ON /\
  no_effect (repeat set_t_minute 125) init_state /\
  gs_timeKeeper
    (run (map Millisecond (repeat set_t_minute 125 ++ [set_t_minute]))
       init_state)
  = mkTime 1 0 0 0.
Proof.
  intros alarm set_t set_t_minute.
  assert (Halarm : forall n, Forall (fun x => ALARM_SWITCH x = false)
                               (repeat alarm n))
    by (intros n; now apply Forall_repeat).
  assert (Hset : forall n, Forall (fun x => set_mode x = true)
                             (repeat set_t_minute n))
    by (intros n; now apply Forall_repeat).
  split; [ | split; [ | split ] ].
  - destruct (debounce_from_idle (repeat alarm 74) alarm init_state
                eq_refl eq_refl) as (H & _).
    apply (H (Halarm 74%nat)). rewrite repeat_length. lia.
  - destruct (debounce_from_idle (repeat alarm 75) alarm init_state
                eq_refl eq_refl) as (H & _).
    apply (H (Halarm 75%nat)). apply repeat_length.
  - destruct (debounce_from_idle (repeat set_t_minute 125) set_t_minute
                init_state eq_refl eq_refl) as (_ & H & _).
    apply (H (Hset 125%nat)). rewrite repeat_length. lia.
  - destruct (debounce_from_idle (repeat set_t_minute 125) set_t_minute
                init_state eq_refl eq_refl) as (_ & H & _).
    destruct (H (Hset 125%nat)) as (_ & H126).
    destruct H126 as (Hsel & _);
      [ apply repeat_length | reflexivity | left; reflexivity | ].
    exact Hsel.
Defined.

(** The claim C4 as it is written fails.  The hold counter runs while a
    set switch is held, so after the time set switch alone has been held
    for 126 ms a minute switch pressed for one millisecond is accepted at
    once; after it has been held for 74 ms an alarm switch pressed for one
    millisecond toggles the alarm; and from the idle state a minute
    increment held for exactly the threshold of 125 ms is not accepted,
    the test being [switchTimeout > initTimeout]. *)
Lemma debounce_counterexample :
  let alarm := mkSwitches true true true true false in
  let set_t := mkSwitches true false true true true in
  let set_t_minute := mkSwitches true false true false true in
  let s126 := hold 126 set_t init_state in
  let s74 := hold 74 set_t init_state in
  (switchTimeout s126 = 126 /\ initTimeout s126 = 125 /\
   gs_timeKeeper s126 = midnight /\
   gs_timeKeeper (hold 1 set_t_minute s126) = mkTime 1 0 0 0) /\
  (switchTimeout s74 = 74 /\ alarm_on_off s74 = OFF /\
   alarm_on_off (hold 1 alarm s74) = ON) /\
  (gs_timeKeeper (hold 125 set_t_minute init_state) = midnight /\
   gs_timeKeeper (hold 126 set_t_minute init_state) = mkTime 1 0 0 0).
Proof.
  vm_compute. repeat split; reflexivity.
Qed.

(** ** The repeat threshold under a continuous hold *)

Section Hold.

Variable sw : switches.
Hypothesis Hmode : set_mode sw = true.
Hypothesis Hpress : MINUTE_SWITCH sw = false \/ HOUR_SWITCH sw = false.

Lemma pressed_accepts (s : state) :
  0 <= switchTimeout s < 255 ->
  set_accepts sw s = (switchTimeout s + 1 >? initTimeout s).
Proof.
  intros Hc. unfold set_accepts. rewrite u8_small by lia.
  destruct Hpress as [H | H]; rewrite H;
    destruct (MINUTE_SWITCH sw), (HOUR_SWITCH sw); reflexivity.
Qed.

(** From a cleared hold counter nothing is accepted for as many
    milliseconds as the threshold says. *)
Lemma hold_waits (s : state) (j : nat) :
  switchTimeout s = 0 -> 0 <= initTimeout s < 255 ->
  Z.of_nat j <= initTimeout s ->
  switchTimeout (hold j sw s) = Z.of_nat j /\
  initTimeout (hold j sw s) = initTimeout s /\
  selected sw (hold j sw s) = selected sw s.
Proof.
  intros Hst Hit. induction j as [ | j IH ]; intros Hj.
  - unfold hold. cbn [repeat run]. rewrite Hst.
    repeat split; reflexivity.
  - destruct IH as (IH1 & IH2 & IH3); [ lia | ].
    rewrite hold_S.
    destruct (tick_set sw (hold j sw s) Hmode) as (H1 & H2 & H3 & _).
    rewrite pressed_accepts in H1, H2, H3 by lia.
    rewrite IH1, IH2 in H1, H2, H3.
    destruct (Z.of_nat j + 1 >? initTimeout s) eqn:E;
      [ bool_to_prop; lia | ].
    rewrite H1, H2, H3, IH3. rewrite u8_small by lia.
    split; [ lia | ]. split; [ | reflexivity ].
    destruct Hpress as [H | H]; rewrite H;
      destruct (MINUTE_SWITCH sw), (HOUR_SWITCH sw); reflexivity.
Qed.

(** The millisecond after that the increment is accepted: one set
    action, the counter cleared, the threshold ramped. *)
Lemma hold_accepts (s : state) :
  switchTimeout s = 0 -> 0 <= initTimeout s < 255 ->
  set_accepts sw (hold (Z.to_nat (initTimeout s)) sw s) = true /\
  switchTimeout (hold (Z.to_nat (initTimeout s + 1)) sw s) = 0 /\
  initTimeout (hold (Z.to_nat (initTimeout s + 1)) sw s)
  = ramp (initTimeout s) /\
  selected sw (hold (Z.to_nat (initTimeout s + 1)) sw s)
  = set_action sw (selected sw s).
Proof.
  intros Hst Hit.
  destruct (hold_waits s (Z.to_nat (initTimeout s)) Hst Hit)
    as (H1 & H2 & H3); [ lia | ].
  assert (Hacc : set_accepts sw (hold (Z.to_nat (initTimeout s)) sw s)
                 = true).
  { rewrite pressed_accepts by lia. rewrite H1, H2.
    rewrite Z.gtb_ltb. apply Z.ltb_lt. lia. }
  split; [ exact Hacc | ].
  replace (Z.to_nat (initTimeout s + 1))
    with (S (Z.to_nat (initTimeout s))) by lia.
  rewrite hold_S.
  destruct (tick_set sw (hold (Z.to_nat (initTimeout s)) sw s) Hmode)
    as (-> & -> & -> & _).
  rewrite Hacc, H2, H3. repeat split; reflexivity.
Qed.

End Hold.

Lemma threshold_range (k : nat) :
  MIN_DELAY <= threshold k <= INIT_DELAY.
Proof. unfold threshold, MIN_DELAY, INIT_DELAY, RAMP_DELAY. lia. Qed.

Lemma threshold_step (k : nat) : threshold (S k) = ramp (threshold k).
Proof.
  unfold ramp. pose proof (threshold_range k) as Hr. revert Hr.
  unfold threshold, MIN_DELAY, INIT_DELAY, RAMP_DELAY. intros Hr.
  destruct (Z.max 75 (125 - 5 * Z.of_nat k) >? 75) eqn:E; bool_to_prop.
  - rewrite u8_small by lia. lia.
  - lia.
Qed.

Lemma hold_after_accepts (sw : switches) (s : state) (k : nat) :
  set_mode sw = true ->
  MINUTE_SWITCH sw = false \/ HOUR_SWITCH sw = false ->
  switchTimeout s = 0 -> initTimeout s = INIT_DELAY ->
  switchTimeout (hold (accept_tick k) sw s) = 0 /\
  initTimeout (hold (accept_tick k) sw s) = threshold k /\
  selected sw (hold (accept_tick k) sw s)
  = Nat.iter k (set_action sw) (selected sw s).
Proof.
  intros Hmode Hpress Hst Hit. induction k as [ | k (IH1 & IH2 & IH3) ].
  - unfold hold. cbn [accept_tick repeat run Nat.iter].
    repeat split; assumption || reflexivity.
  - cbn [accept_tick Nat.iter]. rewrite hold_add.
    pose proof (threshold_range k) as Hr. unfold MIN_DELAY, INIT_DELAY in Hr.
    rewrite <- IH2 at 1 2 3.
    destruct (hold_accepts sw Hmode Hpress (hold (accept_tick k) sw s))
      as (_ & -> & -> & ->); [ exact IH1 | rewrite IH2; lia | ].
    rewrite IH2, IH3, threshold_step. repeat split; reflexivity.
Qed.

Lemma released_increments_reset (sw : switches) (s : state) :
  ALARM_SWITCH sw = true ->
  MINUTE_SWITCH sw = true -> HOUR_SWITCH sw = true ->
  initTimeout (control_isr sw s) = INIT_DELAY.
Proof.
  intros Halarm Hmin Hhour.
  destruct (SET_A_SWITCH sw) eqn:Hseta;
    [ destruct (SET_T_SWITCH sw) eqn:Hsett | ].
  - now destruct (tick_idle sw s Halarm Hseta Hsett) as (_ & -> & _).
  - assert (Hmode : set_mode sw = true)
      by (unfold set_mode; now rewrite Halarm, Hseta, Hsett).
    destruct (tick_set sw s Hmode) as (_ & -> & _).
    unfold set_accepts. now rewrite Hmin, Hhour.
  - assert (Hmode : set_mode sw = true)
      by (unfold set_mode; now rewrite Halarm, Hseta).
    destruct (tick_set sw s Hmode) as (_ & -> & _).
    unfold set_accepts. now rewrite Hmin, Hhour.
Qed.

(** C8, as the routine has it: while an increment switch is held in a
    set mode, the repeat threshold [initTimeout] starts at 125 when the
    hold follows a millisecond with the alarm switch and both increment
    switches released, which puts it there; a millisecond with the alarm
    switch pressed leaves it where the hold before left it.  From any
    value on the ramp it comes down by 5 at an accepted increment as long
    as it is above 75, is left alone by a millisecond that accepts
    nothing, and is never below 75.  After the [k]-th accepted increment
    of a hold begun from the idle values the next one is accepted
    [threshold k + 1] milliseconds later and none before, so the intervals
    between repeats come down strictly as long as the threshold is above
    the floor, and are never below it; the same holds from any state that
    an accepted increment leaves. *)
Theorem repeat_threshold_ramp (sw : switches) (s : state) (k : nat) :
  set_mode sw = true ->
  MINUTE_SWITCH sw = false \/ HOUR_SWITCH sw = false ->
  switchTimeout s = 0 -> initTimeout s = INIT_DELAY ->
  (switchTimeout (hold (accept_tick k) sw s) = 0 /\
   initTimeout (hold (accept_tick k) sw s) = threshold k /\
   selected sw (hold (accept_tick k) sw s)
   = Nat.iter k (set_action sw) (selected sw s)) /\
  (forall j : nat, Z.of_nat j <= threshold k ->
     set_accepts sw (hold (accept_tick k + j) sw s)
     = (Z.of_nat j =? threshold k) /\
     initTimeout (hold (accept_tick k + j) sw s) = threshold k /\
     selected sw (hold (accept_tick k + j) sw s)
     = Nat.iter k (set_action sw) (selected sw s)) /\
  (threshold 0 = INIT_DELAY /\
   MIN_DELAY <= threshold k /\
   threshold (S k)
   = (if threshold k >? MIN_DELAY then threshold k - RAMP_DELAY
      else threshold k) /\
   (MIN_DELAY < threshold k -> threshold (S k) < threshold k)) /\
  (Z.of_nat (accept_tick (S k)) - Z.of_nat (accept_tick k) = threshold k + 1
   /\ (MIN_DELAY < threshold k ->
       Z.of_nat (accept_tick (S (S k))) - Z.of_nat (accept_tick (S k))
       < Z.of_nat (accept_tick (S k)) - Z.of_nat (accept_tick k))
   /\ MIN_DELAY
      < Z.of_nat (accept_tick (S k)) - Z.of_nat (accept_tick k)) /\
  (forall sw0 s0,
     ALARM_SWITCH sw0 = true ->
     MINUTE_SWITCH sw0 = true -> HOUR_SWITCH sw0 = true ->
     initTimeout (control_isr sw0 s0) = INIT_DELAY) /\
  (forall s1 k1,
     switchTimeout s1 = 0 -> initTimeout s1 = threshold k1 ->
     (forall j : nat, Z.of_nat j <= threshold k1 ->
        set_accepts sw (hold j sw s1) = (Z.of_nat j =? threshold k1)) /\
     switchTimeout (hold (Z.to_nat (threshold k1 + 1)) sw s1) = 0 /\
     initTimeout (hold (Z.to_nat (threshold k1 + 1)) sw s1)
     = threshold (S k1) /\
     selected sw (hold (Z.to_nat (threshold k1 + 1)) sw s1)
     = set_action sw (selected sw s1)) /\
  (forall s1 k1,
     initTimeout s1 = threshold k1 ->
     initTimeout (control_isr sw s1)
     = (if set_accepts sw s1 then threshold (S k1) else threshold k1) /\
     MIN_DELAY <= initTimeout (control_isr sw s1) <= initTimeout s1) /\
  (forall sw0 s0,
     ALARM_SWITCH sw0 = false ->
     initTimeout (control_isr sw0 s0) = initTimeout s0).
Proof.
  intros Hmode Hpress Hst Hit.
  destruct (hold_after_accepts sw s k Hmode Hpress Hst Hit)
    as (H1 & H2 & H3).
  pose proof (threshold_range k) as Hr.
  pose proof (threshold_range (S k)) as HrS.
  assert (Hstep : threshold (S k)
                  = (if threshold k >? MIN_DELAY
                     then threshold k - RAMP_DELAY else threshold k)).
  { rewrite threshold_step. unfold ramp.
    destruct (threshold k >? MIN_DELAY) eqn:E; [ | reflexivity ].
    apply u8_small. bool_to_prop.
    unfold MIN_DELAY, INIT_DELAY, RAMP_DELAY in *. lia. }
  assert (Hdown : MIN_DELAY < threshold k -> threshold (S k) < threshold k).
  { intros Hgt. rewrite Hstep.
    destruct (threshold k >? MIN_DELAY) eqn:E;
      bool_to_prop; unfold RAMP_DELAY; lia. }
  assert (Hgap : forall i, Z.of_nat (accept_tick (S i))
                           - Z.of_nat (accept_tick i) = threshold i + 1).
  { intros i. cbn [accept_tick]. pose proof (threshold_range i) as Hi.
    unfold MIN_DELAY in Hi. lia. }
  assert (Hwait : forall s1 k1 (j : nat),
             switchTimeout s1 = 0 -> initTimeout s1 = threshold k1 ->
             Z.of_nat j <= threshold k1 ->
             set_accepts sw (hold j sw s1) = (Z.of_nat j =? threshold k1) /\
             initTimeout (hold j sw s1) = threshold k1 /\
             selected sw (hold j sw s1) = selected sw s1).
  { intros s1 k1 j Hs1 Hi1 Hj. pose proof (threshold_range k1) as Hr1.
    unfold MIN_DELAY, INIT_DELAY in Hr1.
    destruct (hold_waits sw Hmode Hpress s1 j)
      as (W1 & W2 & W3); [ exact Hs1 | rewrite Hi1; lia | rewrite Hi1; lia | ].
    rewrite pressed_accepts by (assumption || lia).
    rewrite W1, W2, W3, Hi1. split; [ | split; reflexivity ].
    destruct (Z.of_nat j =? threshold k1) eqn:E; bool_to_prop;
      rewrite Z.gtb_ltb; [ apply Z.ltb_lt | apply Z.ltb_ge ]; lia. }
  split; [ repeat split; assumption | ].
  split; [ | split; [ | split; [ | split; [ | split; [ | split ] ] ] ] ].
  - intros j Hj. rewrite hold_add.
    destruct (Hwait (hold (accept_tick k) sw s) k j H1 H2 Hj)
      as (-> & -> & ->).
    rewrite H3. repeat split; reflexivity.
  - split; [ reflexivity | ]. split; [ apply Hr | ].
    split; [ exact Hstep | exact Hdown ].
  - rewrite !Hgap. split; [ reflexivity | ].
    split; [ intros Hgt; specialize (Hdown Hgt); lia | ].
    unfold MIN_DELAY in *. lia.
  - intros sw0 s0. apply released_increments_reset.
  - intros s1 k1 Hs1 Hi1. pose proof (threshold_range k1) as Hr1.
    unfold MIN_DELAY, INIT_DELAY in Hr1.
    split; [ intros j Hj; exact (proj1 (Hwait s1 k1 j Hs1 Hi1 Hj)) | ].
    rewrite <- Hi1.
    destruct (hold_accepts sw Hmode Hpress s1)
      as (_ & -> & -> & ->); [ exact Hs1 | rewrite Hi1; lia | ].
    rewrite Hi1, threshold_step. repeat split; reflexivity.
  - intros s1 k1 Hi1.
    destruct (tick_set sw s1 Hmode) as (_ & Hinit & _).
    assert (Hboth : MINUTE_SWITCH sw && HOUR_SWITCH sw = false)
      by (destruct Hpress as [-> | ->];
          [ reflexivity | apply andb_false_r ]).
    rewrite Hboth in Hinit.
    pose proof (threshold_range k1) as Hr1.
    pose proof (threshold_range (S k1)) as Hr2.
    destruct (set_accepts sw s1).
    + rewrite Hinit, Hi1, <- threshold_step.
      split; [ reflexivity | ]. split; [ apply Hr2 | ].
      unfold threshold, MIN_DELAY, INIT_DELAY, RAMP_DELAY. lia.
    + rewrite Hinit, Hi1. split; [ reflexivity | lia ].
  - intros sw0 s0 Halarm.
    now destruct (tick_alarm sw0 s0 Halarm) as (_ & -> & _).
Qed.

Lemma repeat_threshold_ramp_witness :
  let sw := mkSwitches true false true false true in
  (initTimeout (hold (accept_tick 3) sw init_state) = 110 /\
   gs_timeKeeper (hold (accept_tick 3) sw init_state) = mkTime 3 0 0 0) /\
  (set_accepts sw (hold (accept_tick 3 + 109) sw init_state) = false /\
   set_accepts sw (hold (accept_tick 3 + 110) sw init_state) = true) /\
  initTimeout (hold (accept_tick 30) sw init_state) = 75.
Proof.
  intros sw.
  assert (Hpress : MINUTE_SWITCH sw = false \/ HOUR_SWITCH sw = false)
    by (left; reflexivity).
  destruct (repeat_threshold_ramp sw init_state 3 eq_refl Hpress eq_refl
              eq_refl) as ((_ & H2 & H3) & Hj & _).
  destruct (repeat_threshold_ramp sw init_state 30 eq_refl Hpress eq_refl
              eq_refl) as ((_ & H30 & _) & _).
  split; [ split; [ exact H2 | exact H3 ] | ].
  split; [ | exact H30 ].
  split.
  - destruct (Hj 109%nat) as (H & _); [ vm_compute; discriminate | exact H ].
  - destruct (Hj 110%nat) as (H & _); [ vm_compute; discriminate | exact H ].
Defined.

(** The claim C8 as it is written fails: the branch of the alarm switch
    (lines 245-265) does not write [initTimeout].  After a first increment
    of the minutes has been accepted and has left the threshold at 120,
    one millisecond with only the alarm switch pressed releases the
    increment switch and leaves the threshold at 120; the hold of the
    minute switch that begins then does not start at 125, and its first
    increment is accepted after 120 ms. *)
Lemma repeat_threshold_counterexample :
  let set_t_minute := mkSwitches true false true false true in
  let alarm := mkSwitches true true true true false in
  let s := hold 1 alarm (hold 126 set_t_minute init_state) in
  initTimeout s = 120 /\ initTimeout s <> INIT_DELAY /\
  switchTimeout s = 1 /\
  gs_timeKeeper s = mkTime 1 0 0 0 /\
  gs_timeKeeper (hold 119 set_t_minute s) = mkTime 1 0 0 0 /\
  gs_timeKeeper (hold 120 set_t_minute s) = mkTime 2 0 0 0 /\
  initTimeout (hold 120 set_t_minute s) = 115.
Proof.
  vm_compute. repeat split; try reflexivity. discriminate.
Qed.

(** * Further properties of the routines *)

(** ** The fields a millisecond leaves to the rest *)

Lemma control_switches_rest (sw : switches) (s : state) :
  seconds (control_switches sw s) = seconds s /\
  digitSelect (control_switches sw s) = digitSelect s /\
  milliseconds (control_switches sw s) = milliseconds s /\
  ALARM_LED (control_switches sw s)
  = (if negb (ALARM_SWITCH sw)
        && (alarm_count (switchTimeout s) =? MIN_DELAY)
     then toggle (alarm_on_off s) =? 0 else ALARM_LED s).
Proof.
  destruct (ALARM_SWITCH sw) eqn:Halarm; cbn [negb andb].
  - destruct (SET_A_SWITCH sw) eqn:Hseta;
      [ destruct (SET_T_SWITCH sw) eqn:Hsett | ].
    + rewrite control_switches_idle by assumption.
      repeat split; reflexivity.
    + rewrite control_switches_set_t by assumption.
      rewrite time_set_branch_eq.
      destruct (set_accepts sw s); repeat split; reflexivity.
    + rewrite control_switches_set_a by assumption.
      rewrite alarm_set_branch_eq.
      destruct (set_accepts sw s); repeat split; reflexivity.
  - rewrite control_switches_alarm by assumption.
    rewrite alarm_switch_branch_eq. cbv zeta.
    destruct (alarm_count (switchTimeout s) =? MIN_DELAY);
      [ | repeat split; reflexivity ].
    destruct (toggle (alarm_on_off s) =? OFF); repeat split; reflexivity.
Qed.

Lemma control_isr_rest (sw : switches) (s : state) :
  seconds (control_isr sw s) = seconds s /\
  digitSelect (control_isr sw s) = next_digit (digitSelect s) /\
  milliseconds (control_isr sw s) = u16 (milliseconds s + 1) /\
  ALARM_LED (control_isr sw s)
  = (if negb (ALARM_SWITCH sw)
        && (alarm_count (switchTimeout s) =? MIN_DELAY)
     then toggle (alarm_on_off s) =? 0 else ALARM_LED s).
Proof.
  rewrite control_isr_eq, tone_sequence_eq. unfold digit_rotate.
  set (s0 := set_milliseconds (u16 (milliseconds s + 1)) s).
  destruct (control_switches_rest sw s0) as (H1 & H2 & H3 & H4).
  cbn [seconds digitSelect milliseconds ALARM_LED set_digitSelect
       set_alarm_tone set_prev_milliseconds].
  rewrite H1, H2, H3, H4. repeat split; reflexivity.
Qed.

(** The seconds routine writes the seconds, the current time and the tone,
    and nothing else. *)
Lemma timer_alarm_rest (s : state) :
  switchTimeout (timer_alarm s) = switchTimeout s /\
  initTimeout (timer_alarm s) = initTimeout s /\
  milliseconds (timer_alarm s) = milliseconds s /\
  digitSelect (timer_alarm s) = digitSelect s /\
  ALARM_LED (timer_alarm s) = ALARM_LED s.
Proof.
  destruct s as [ds st it ms pms sec tk ak a tone led].
  unfold timer_alarm. exec; repeat split; reflexivity.
Qed.

Lemma timer_isr_rest (sw : switches) (s : state) :
  gs_alarmKeeper (timer_isr sw s) = gs_alarmKeeper s /\
  alarm_on_off (timer_isr sw s) = alarm_on_off s /\
  switchTimeout (timer_isr sw s) = switchTimeout s /\
  initTimeout (timer_isr sw s) = initTimeout s /\
  milliseconds (timer_isr sw s) = milliseconds s /\
  digitSelect (timer_isr sw s) = digitSelect s /\
  ALARM_LED (timer_isr sw s) = ALARM_LED s.
Proof.
  destruct (SET_T_SWITCH sw) eqn:Hsw.
  - rewrite (timer_isr_run sw s Hsw).
    match goal with
    | |- context [timer_alarm ?x] =>
        destruct (timer_alarm_clock x) as (_ & _ & -> & ->);
        destruct (timer_alarm_rest x) as (-> & -> & -> & -> & ->)
    end.
    repeat split; reflexivity.
  - rewrite (timer_isr_hold sw s Hsw). repeat split; reflexivity.
Qed.

(** ** The states the routines keep to *)

Lemma spec_rollover_clock (t : time) :
  0 <= one_minutes t <= 10 -> 0 <= ten_minutes t <= 5 ->
  0 <= one_hours t <= 9 -> 0 <= ten_hours t <= 2 ->
  ~ (ten_hours t >= 2 /\ one_hours t >= 4) ->
  clock_time (spec_rollover t).
Proof.
  destruct t as [om tm oh th]. fields. intros Hom Htm Hoh Hth Hw.
  unfold clock_time, spec_rollover, spec_carry_onesMinutes,
    spec_carry_tensMinutes, spec_carry_onesHours, spec_joint_wrap.
  exec; range_solve.
Qed.

Lemma spec_seconds_step_clock (sec : Z) (t : time) :
  clock_time t -> clock_time (snd (spec_seconds_step (sec, t))).
Proof.
  intros ((Hom & Htm & Hoh & Hw) & Hth). unfold spec_seconds_step.
  destruct (u8 (sec + 1) >? 59); cbn [snd];
    apply spec_rollover_clock; fields; rewrite ?u8_small by lia;
    try lia; exact Hw.
Qed.

Lemma spec_seconds_step_seconds (sec : Z) (t : time) :
  0 <= fst (spec_seconds_step (sec, t)) <= 59.
Proof.
  unfold spec_seconds_step.
  destruct (u8 (sec + 1) >? 59) eqn:E; cbn [fst]; [ lia | ].
  bool_to_prop. unfold u8 in *.
  pose proof (Z.mod_pos_bound (sec + 1) 256). lia.
Qed.

Lemma set_action_clock (sw : switches) (t : time) :
  clock_time t -> clock_time (set_action sw t).
Proof.
  destruct t as [om tm oh th]. intros ((Hom & Htm & Hoh & Hw) & Hth).
  fields. unfold clock_time, set_action, set_rollover, add_one_hours,
    add_one_minutes.
  destruct (MINUTE_SWITCH sw), (HOUR_SWITCH sw); exec; range_solve.
Qed.

Lemma next_digit_one_hot (ds : Z) : one_hot ds -> one_hot (next_digit ds).
Proof.
  unfold one_hot. intros [-> | [-> | [-> | ->]]]; vm_compute; tauto.
Qed.

Lemma tone_tick_ok (ms pms tone : Z) :
  0 <= tone <= 7 ->
  0 <= snd (tone_tick (ms, pms, tone)) <= 7 /\
  (snd (tone_tick (ms, pms, tone)) = 0 <-> tone = 0) /\
  fst (fst (tone_tick (ms, pms, tone))) = u16 (ms + 1).
Proof.
  intros Ht. unfold tone_tick, tone_next.
  destruct (negb (tone =? 0) && (u16 (u16 (ms + 1) - pms) >? TONE_TIME))
    eqn:E; cbn [fst snd]; [ | repeat split; lia ].
  apply andb_true_iff in E. destruct E as [E _].
  apply negb_true_iff in E. bool_to_prop.
  destruct (tone <=? 1) eqn:E1; bool_to_prop.
  - repeat split; lia.
  - rewrite u8_small by lia. repeat split; lia.
Qed.

Lemma timer_alarm_tone (s : state) :
  alarm_tone (timer_alarm s) = alarm_tone s \/
  alarm_tone (timer_alarm s) = 0 \/
  (alarm_tone (timer_alarm s) = 7 /\ alarm_on_off s = ON).
Proof.
  destruct s as [ds st it ms pms sec tk ak a tone led].
  unfold timer_alarm. exec; bool_to_prop; tauto.
Qed.

Lemma timer_isr_ok (sw : switches) (s : state) :
  state_ok s -> state_ok (timer_isr sw s).
Proof.
  intros (Hsec & Htk & Hak & Hds & Htone & Ha & Hled & Harm & Hst & Hit & Hms).
  unfold state_ok.
  destruct (timer_isr_rest sw s) as (-> & -> & -> & -> & -> & -> & ->).
  destruct (SET_T_SWITCH sw) eqn:Hsw.
  - rewrite (timer_isr_run sw s Hsw).
    set (x := set_timeKeeper _ _).
    destruct (timer_alarm_clock x) as (-> & -> & _ & _).
    subst x. fields.
    split; [ apply spec_seconds_step_seconds | ].
    split; [ now apply spec_seconds_step_clock | ].
    do 2 (split; [ assumption | ]).
    match goal with
    | |- context [timer_alarm ?x] =>
        destruct (timer_alarm_tone x) as [-> | [-> | [-> Hon]]]
    end; fields.
    + repeat split; assumption || lia.
    + repeat split; assumption || lia.
    + repeat split; assumption || lia.
  - rewrite (timer_isr_hold sw s Hsw). fields.
    repeat split; try assumption; try lia; apply Htk || apply Hak.
Qed.

Lemma control_isr_keepers (sw : switches) (s : state) :
  clock_time (gs_timeKeeper s) -> clock_time (gs_alarmKeeper s) ->
  clock_time (gs_timeKeeper (control_isr sw s)) /\
  clock_time (gs_alarmKeeper (control_isr sw s)).
Proof.
  intros Ht Ha.
  destruct (control_isr_one_action sw s)
    as [(-> & -> & _) | [(-> & -> & _) | [(-> & -> & _) | (-> & -> & _)]]];
    split; try assumption; now apply set_action_clock.
Qed.

Lemma alarm_count_range (c : Z) :
  0 <= c <= 255 -> 0 <= alarm_count c <= 255.
Proof.
  intros Hc. unfold alarm_count.
  destruct (c >? MIN_DELAY); [ exact Hc | ].
  unfold u8. pose proof (Z.mod_pos_bound (c + 1) 256). lia.
Qed.

Lemma u8_range (x : Z) : 0 <= u8 x <= 255.
Proof. unfold u8. pose proof (Z.mod_pos_bound x 256). lia. Qed.

Lemma toggle_binary (a : Z) : toggle a = ON \/ toggle a = OFF.
Proof. unfold toggle. destruct (a =? ON); tauto. Qed.

Lemma control_isr_ok (sw : switches) (s : state) :
  state_ok s -> state_ok (control_isr sw s).
Proof.
  intros (Hsec & Htk & Hak & Hds & Htone & Ha & Hled & Harm & Hst & Hit & Hms).
  unfold state_ok.
  destruct (control_isr_rest sw s) as (-> & -> & Hms' & Hled').
  destruct (control_isr_keepers sw s Htk Hak) as (Htk' & Hak').
  destruct (tone_tick_ok (milliseconds s) (prev_milliseconds s)
              (alarm_tone s) Htone) as (Ht1 & Ht2 & _).
  split; [ exact Hsec | ]. split; [ exact Htk' | ]. split; [ exact Hak' | ].
  split; [ now apply next_digit_one_hot | ].
  assert (Hmsr : 0 <= milliseconds (control_isr sw s) < 65536).
  { rewrite Hms'. unfold u16. apply Z.mod_pos_bound. lia. }
  destruct (ALARM_SWITCH sw) eqn:Halarm; cbn [negb andb] in Hled'.
  - assert (Hcase :
        switchTimeout (control_isr sw s) = 0
        \/ switchTimeout (control_isr sw s) = u8 (switchTimeout s + 1)).
    { destruct (SET_A_SWITCH sw) eqn:Hseta;
        [ destruct (SET_T_SWITCH sw) eqn:Hsett | ].
      - left. now destruct (tick_idle sw s Halarm Hseta Hsett) as (-> & _).
      - assert (Hmode : set_mode sw = true)
          by (unfold set_mode; now rewrite Halarm, Hseta, Hsett).
        destruct (tick_set sw s Hmode) as (-> & _).
        destruct (set_accepts sw s); tauto.
      - assert (Hmode : set_mode sw = true)
          by (unfold set_mode; now rewrite Halarm, Hseta).
        destruct (tick_set sw s Hmode) as (-> & _).
        destruct (set_accepts sw s); tauto. }
    assert (Hinit : exists k : nat, initTimeout (control_isr sw s) = threshold k).
    { destruct Hit as [k Hk].
      destruct (SET_A_SWITCH sw) eqn:Hseta;
        [ destruct (SET_T_SWITCH sw) eqn:Hsett | ].
      - exists 0%nat.
        now destruct (tick_idle sw s Halarm Hseta Hsett) as (_ & -> & _).
      - assert (Hmode : set_mode sw = true)
          by (unfold set_mode; now rewrite Halarm, Hseta, Hsett).
        destruct (tick_set sw s Hmode) as (_ & -> & _).
        destruct (set_accepts sw s);
          [ exists (S k); now rewrite threshold_step, Hk | ].
        destruct (MINUTE_SWITCH sw && HOUR_SWITCH sw);
          [ now exists 0%nat | now exists k ].
      - assert (Hmode : set_mode sw = true)
          by (unfold set_mode; now rewrite Halarm, Hseta).
        destruct (tick_set sw s Hmode) as (_ & -> & _).
        destruct (set_accepts sw s);
          [ exists (S k); now rewrite threshold_step, Hk | ].
        destruct (MINUTE_SWITCH sw && HOUR_SWITCH sw);
          [ now exists 0%nat | now exists k ]. }
    assert (Hquiet :
        alarm_on_off (control_isr sw s) = alarm_on_off s /\
        tone_view (control_isr sw s) = tone_tick (tone_view s)).
    { destruct (SET_A_SWITCH sw) eqn:Hseta;
        [ destruct (SET_T_SWITCH sw) eqn:Hsett | ].
      - now destruct (tick_idle sw s Halarm Hseta Hsett)
          as (_ & _ & _ & _ & -> & ->).
      - assert (Hmode : set_mode sw = true)
          by (unfold set_mode; now rewrite Halarm, Hseta, Hsett).
        now destruct (tick_set sw s Hmode) as (_ & _ & _ & _ & _ & -> & ->).
      - assert (Hmode : set_mode sw = true)
          by (unfold set_mode; now rewrite Halarm, Hseta).
        now destruct (tick_set sw s Hmode) as (_ & _ & _ & _ & _ & -> & ->). }
    destruct Hquiet as (Ha' & Htv).
    assert (Htone' : alarm_tone (control_isr sw s)
                     = snd (tone_tick (tone_view s)))
      by (rewrite <- Htv; reflexivity).
    unfold tone_view in Htone'. rewrite Htone', Ha', Hled'.
    split; [ exact Ht1 | ]. split; [ exact Ha | ]. split; [ exact Hled | ].
    split; [ intros Hnz; apply Harm; intros Hz; apply Hnz, Ht2, Hz | ].
    split; [ | split; assumption ].
    destruct Hcase as [-> | ->]; [ lia | apply u8_range ].
  - destruct (tick_alarm sw s Halarm) as (Hst' & Hit' & _ & _ & Ha' & Htv).
    rewrite Hst', Hit', Ha', Hled'.
    assert (Htone' : alarm_tone (control_isr sw s)
                     = snd (tone_view (control_isr sw s))) by reflexivity.
    rewrite Htone', Htv.
    destruct (alarm_count (switchTimeout s) =? MIN_DELAY); cbn [andb].
    + destruct (toggle_binary (alarm_on_off s)) as [Hon | Hoff].
      * rewrite Hon. change (ON =? OFF) with false. cbv iota.
        unfold tone_view. change (ON =? 0) with false.
        repeat split; try assumption; try lia; try tauto;
          try (now apply alarm_count_range).
      * rewrite Hoff. change (OFF =? OFF) with true. cbv iota. cbn [snd].
        repeat split; try assumption; try lia; try tauto;
          now apply alarm_count_range.
    + unfold tone_view.
      repeat split; try assumption; try lia; try tauto;
        now apply alarm_count_range.
Qed.

Lemma init_state_ok : state_ok init_state.
Proof.
  unfold state_ok, init_state, clock_time, valid_time, one_hot, midnight.
  fields.
  repeat split; try lia; auto; try discriminate; now exists 0%nat.
Qed.

Lemma run_ok (es : list event) (s : state) : state_ok s -> state_ok (run es s).
Proof.
  revert s. induction es as [ | e es IH ]; intros s Hs; [ exact Hs | ].
  cbn [run]. apply IH. destruct e as [sw | sw]; cbn [step].
  - now apply control_isr_ok.
  - now apply timer_isr_ok.
Qed.

(** X1: in every state the two routines reach from the initial state,
    [seconds] is in 0..59 and each of the two times has [ten_hours] in
    0..2, an hour in 0..23 and a minute in 0..59. *)
Theorem clock_always_in_range (es : list event) :
  0 <= seconds (run es init_state) <= 59 /\
  (0 <= ten_hours (gs_timeKeeper (run es init_state)) <= 2 /\
   0 <= hour_of (gs_timeKeeper (run es init_state)) <= 23 /\
   0 <= minute_of (gs_timeKeeper (run es init_state)) <= 59) /\
  (0 <= ten_hours (gs_alarmKeeper (run es init_state)) <= 2 /\
   0 <= hour_of (gs_alarmKeeper (run es init_state)) <= 23 /\
   0 <= minute_of (gs_alarmKeeper (run es init_state)) <= 59).
Proof.
  destruct (run_ok es init_state init_state_ok)
    as (Hsec & ((Hom & Htm & Hoh & Hw) & Hth)
        & ((Hom' & Htm' & Hoh' & Hw') & Hth') & _).
  unfold hour_of, minute_of. repeat split; lia.
Qed.

(** X2: in every reachable state the digit selection is one of 1, 2, 4, 8;
    a millisecond moves it 1 -> 2 -> 4 -> 8 -> 1 whatever the switches do,
    so four milliseconds bring it back, and the seconds routine does not
    move it. *)
Theorem digit_selection_cycles
    (es : list event) (sw1 sw2 sw3 sw4 : switches) :
  one_hot (digitSelect (run es init_state)) /\
  digitSelect (control_isr sw1 (run es init_state))
  = (if digitSelect (run es init_state) =? 8 then 1
     else 2 * digitSelect (run es init_state)) /\
  digitSelect (run (map Millisecond [sw1; sw2; sw3; sw4]) (run es init_state))
  = digitSelect (run es init_state) /\
  digitSelect (timer_isr sw1 (run es init_state))
  = digitSelect (run es init_state).
Proof.
  destruct (run_ok es init_state init_state_ok) as (_ & _ & _ & Hds & _).
  set (s := run es init_state) in *.
  split; [ exact Hds | ]. split; [ | split ].
  - destruct (control_isr_rest sw1 s) as (_ & -> & _).
    destruct Hds as [-> | [-> | [-> | ->]]]; reflexivity.
  - cbn [map run step].
    repeat match goal with
      | |- context [digitSelect (control_isr ?a ?x)] =>
          destruct (control_isr_rest a x) as (_ & -> & _)
      end.
    destruct Hds as [-> | [-> | [-> | ->]]]; reflexivity.
  - now destruct (timer_isr_rest sw1 s) as (_ & _ & _ & _ & _ & -> & _).
Qed.

(** X3: in every reachable state [alarm_tone] is in 0..7, and it is not 0
    only while the alarm is on: the tone never sounds with the alarm
    off. *)
Theorem tone_only_while_armed (es : list event) :
  0 <= alarm_tone (run es init_state) <= 7 /\
  (alarm_tone (run es init_state) <> 0 ->
   alarm_on_off (run es init_state) = ON).
Proof.
  destruct (run_ok es init_state init_state_ok)
    as (_ & _ & _ & _ & Htone & _ & _ & Harm & _).
  split; assumption.
Qed.

(** X4: in every reachable state [alarm_on_off] is [ON] or [OFF] and the
    alarm LED pin is the complement of it, as line 256 leaves it at each
    toggle. *)
Theorem alarm_led_mirrors_flag (es : list event) :
  (alarm_on_off (run es init_state) = ON \/
   alarm_on_off (run es init_state) = OFF) /\
  (ALARM_LED (run es init_state) = true <->
   alarm_on_off (run es init_state) = OFF).
Proof.
  destruct (run_ok es init_state init_state_ok)
    as (_ & _ & _ & _ & _ & Ha & Hled & _).
  split; [ exact Ha | ]. rewrite Hled. unfold OFF. apply Z.eqb_eq.
Qed.

(** X5: in every reachable state the repeat threshold [initTimeout] is
    one of 125, 120, ..., 75: between the floor and the initial delay and a
    multiple of the ramp step; the hold counter is in 0..255. *)
Theorem threshold_always_on_ramp (es : list event) :
  MIN_DELAY <= initTimeout (run es init_state) <= INIT_DELAY /\
  initTimeout (run es init_state) mod RAMP_DELAY = 0 /\
  0 <= switchTimeout (run es init_state) <= 255.
Proof.
  destruct (run_ok es init_state init_state_ok)
    as (_ & _ & _ & _ & _ & _ & _ & _ & Hst & (k & Hk) & _).
  rewrite Hk. split; [ apply threshold_range | ]. split; [ | exact Hst ].
  unfold threshold, MIN_DELAY, INIT_DELAY, RAMP_DELAY.
  destruct (Z.max_spec 75 (125 - 5 * Z.of_nat k)) as [[_ ->] | [_ ->]].
  - replace (125 - 5 * Z.of_nat k) with ((25 - Z.of_nat k) * 5) by lia.
    apply Z.mod_mul. lia.
  - reflexivity.
Qed.

(** ** The carries as arithmetic *)

Lemma spec_rollover_minute (t : time) :
  clock_time t ->
  minutes_of_day
    (spec_rollover (mkTime (u8 (one_minutes t + 1)) (ten_minutes t)
                      (one_hours t) (ten_hours t)))
  = (minutes_of_day t + 1) mod 1440.
Proof.
  destruct t as [om tm oh th]. intros ((Hom & Htm & Hoh & Hw) & Hth).
  fields. rewrite u8_small by lia.
  unfold minutes_of_day, hour_of, minute_of, spec_rollover,
    spec_carry_onesMinutes, spec_carry_tensMinutes, spec_carry_onesHours,
    spec_joint_wrap.
  exec; bool_to_prop; rewrite ?u8_small in * by lia;
    Z.to_euclidean_division_equations; lia.
Qed.

Lemma spec_seconds_step_arith (sec : Z) (t : time) :
  clock_time t -> 0 <= sec <= 59 ->
  60 * minutes_of_day (snd (spec_seconds_step (sec, t)))
  + fst (spec_seconds_step (sec, t))
  = (60 * minutes_of_day t + sec + 1) mod 86400.
Proof.
  intros Ht Hsec.
  assert (Hm : 0 <= minutes_of_day t < 1440).
  { destruct Ht as ((Hom & Htm & Hoh & Hw) & Hth).
    unfold minutes_of_day, hour_of, minute_of. lia. }
  destruct (Z.eq_dec sec 59) as [-> | Hne].
  - unfold spec_seconds_step. change (u8 (59 + 1) >? 59) with true.
    cbv iota. cbn [fst snd]. rewrite spec_rollover_minute by exact Ht.
    replace (60 * minutes_of_day t + 59 + 1)
      with (60 * (minutes_of_day t + 1)) by lia.
    change 86400 with (60 * 1440).
    rewrite Z.mul_mod_distr_l by lia. lia.
  - rewrite spec_seconds_step_inside by (apply Ht || lia). cbn [fst snd].
    rewrite Z.mod_small by lia. lia.
Qed.

Lemma clock_time_inj (t1 t2 : time) :
  clock_time t1 -> clock_time t2 ->
  minutes_of_day t1 = minutes_of_day t2 -> t1 = t2.
Proof.
  destruct t1 as [om1 tm1 oh1 th1], t2 as [om2 tm2 oh2 th2].
  intros ((A1 & A2 & A3 & A4) & A5) ((B1 & B2 & B3 & B4) & B5).
  unfold minutes_of_day, hour_of, minute_of. fields. intros E.
  assert (om1 = om2) by lia. assert (tm1 = tm2) by lia.
  assert (oh1 = oh2) by lia. assert (th1 = th2) by lia.
  now subst.
Qed.

Lemma timer_isr_arith (sw : switches) (s : state) :
  SET_T_SWITCH sw = true ->
  clock_time (gs_timeKeeper s) -> 0 <= seconds s <= 59 ->
  seconds_of_day (timer_isr sw s) = (seconds_of_day s + 1) mod 86400 /\
  clock_time (gs_timeKeeper (timer_isr sw s)) /\
  0 <= seconds (timer_isr sw s) <= 59.
Proof.
  intros Hsw Ht Hsec. unfold seconds_of_day.
  pose proof (timer_isr_clock sw s Hsw) as Hc.
  pose proof (spec_seconds_step_arith (seconds s) (gs_timeKeeper s) Ht Hsec)
    as Ha.
  pose proof (spec_seconds_step_clock (seconds s) (gs_timeKeeper s) Ht) as Hk.
  pose proof (spec_seconds_step_seconds (seconds s) (gs_timeKeeper s)) as Hr.
  rewrite <- Hc in Ha, Hk, Hr. cbn [fst snd] in Ha, Hk, Hr.
  split; [ rewrite Ha; f_equal; lia | split; assumption ].
Qed.

(** X6: with the time-set switch released the seconds routine counts the
    time of day: [n] invocations from a time in range add [n] seconds
    modulo 86400 to it, whatever the alarm does.  So 86400 invocations from
    any time of day, not only from midnight, give the same time and
    seconds again. *)
Theorem seconds_engine_counts_the_day (sws : list switches) (s : state) :
  Forall (fun sw => SET_T_SWITCH sw = true) sws ->
  clock_time (gs_timeKeeper s) -> 0 <= seconds s <= 59 ->
  seconds_of_day (run (map Second sws) s)
  = (seconds_of_day s + Z.of_nat (length sws)) mod 86400 /\
  (length sws = N.to_nat 86400 ->
   gs_timeKeeper (run (map Second sws) s) = gs_timeKeeper s /\
   seconds (run (map Second sws) s) = seconds s).
Proof.
  intros Hall Ht Hsec.
  assert (Hsod : 0 <= seconds_of_day s < 86400).
  { destruct Ht as ((Hom & Htm & Hoh & Hw) & Hth).
    unfold seconds_of_day, minutes_of_day, hour_of, minute_of. lia. }
  assert (Hrun : seconds_of_day (run (map Second sws) s)
                 = (seconds_of_day s + Z.of_nat (length sws)) mod 86400 /\
                 clock_time (gs_timeKeeper (run (map Second sws) s)) /\
                 0 <= seconds (run (map Second sws) s) <= 59).
  { clear Hsod. revert s Ht Hsec.
    induction Hall as [ | sw sws Hsw _ IH ]; intros s Ht Hsec.
    - cbn [map run length]. rewrite Z.add_0_r.
      split; [ | split; assumption ].
      destruct Ht as ((Hom & Htm & Hoh & Hw) & Hth).
      unfold seconds_of_day, minutes_of_day, hour_of, minute_of in *.
      rewrite Z.mod_small; lia.
    - cbn [map run step length].
      destruct (timer_isr_arith sw s Hsw Ht Hsec) as (H1 & H2 & H3).
      destruct (IH (timer_isr sw s) H2 H3) as (I1 & I2 & I3).
      split; [ | split; assumption ].
      rewrite I1, H1, Zplus_mod_idemp_l. f_equal. lia. }
  destruct Hrun as (H1 & H2 & H3). split; [ exact H1 | ].
  intros Hlen. rewrite Hlen in H1.
  replace (Z.of_nat (N.to_nat 86400)) with (1 * 86400) in H1
    by (rewrite N_nat_Z; reflexivity).
  rewrite Z.mod_add, Z.mod_small in H1 by lia.
  unfold seconds_of_day in H1.
  assert (Hm : minutes_of_day (gs_timeKeeper (run (map Second sws) s))
               = minutes_of_day (gs_timeKeeper s)) by lia.
  split; [ now apply clock_time_inj | lia ].
Qed.

Lemma seconds_engine_counts_the_day_witness :
  let s := mkState 1 0 125 0 0 50 (mkTime 9 5 3 2) (mkTime 0 0 0 0) ON 0
             false in
  seconds_of_day (run (map Second (repeat released 15)) s) = 5 /\
  gs_timeKeeper (run (map Second (repeat released 15)) s) = mkTime 0 0 0 0.
Proof.
  intros s.
  assert (Hall : Forall (fun sw => SET_T_SWITCH sw = true)
                   (repeat released 15))
    by (now apply Forall_repeat).
  assert (Ht : clock_time (gs_timeKeeper s))
    by (unfold clock_time, valid_time; cbn; lia).
  assert (Hsec : 0 <= seconds s <= 59) by (cbn; lia).
  destruct (seconds_engine_counts_the_day _ s Hall Ht Hsec) as (H & _).
  split; [ exact H | reflexivity ].
Defined.

Lemma succ_mod (n x : Z) :
  0 <= x < n -> (x + 1) mod n = (if x + 1 =? n then 0 else x + 1).
Proof.
  intros H. destruct (x + 1 =? n) eqn:E; bool_to_prop.
  - rewrite E. apply Z.mod_same. lia.
  - apply Z.mod_small. lia.
Qed.

Lemma set_action_arith (sw : switches) (t : time) :
  clock_time t ->
  hour_of (set_action sw t)
  = (hour_of t + (if HOUR_SWITCH sw then 0 else 1)) mod 24 /\
  minute_of (set_action sw t)
  = (minute_of t + (if MINUTE_SWITCH sw then 0 else 1)) mod 60.
Proof.
  destruct t as [om tm oh th]. intros ((Hom & Htm & Hoh & Hw) & Hth).
  fields. unfold hour_of, minute_of, set_action, set_rollover,
    add_one_hours, add_one_minutes. fields.
  destruct (MINUTE_SWITCH sw), (HOUR_SWITCH sw);
    rewrite ?Z.add_0_r; rewrite ?u8_small by lia;
    rewrite ?succ_mod by lia; rewrite ?Z.mod_small by lia;
    exec; bool_to_prop; rewrite ?u8_small in * by lia;
    split; lia.
Qed.

(** X7: an accepted manual set action is arithmetic on the selected time:
    the hour becomes the hour plus one modulo 24 if the hour switch is
    pressed and stays otherwise, the minute becomes the minute plus one
    modulo 60 if the minute switch is pressed and stays otherwise; the
    minute never carries into the hour. *)
Theorem manual_set_is_modular (sw : switches) (s : state) :
  set_mode sw = true -> set_accepts sw s = true ->
  clock_time (selected sw s) ->
  hour_of (selected sw (control_isr sw s))
  = (hour_of (selected sw s) + (if HOUR_SWITCH sw then 0 else 1)) mod 24 /\
  minute_of (selected sw (control_isr sw s))
  = (minute_of (selected sw s) + (if MINUTE_SWITCH sw then 0 else 1)) mod 60
  /\ clock_time (selected sw (control_isr sw s)).
Proof.
  intros Hmode Hacc Ht.
  destruct (tick_set sw s Hmode) as (_ & _ & -> & _). rewrite Hacc.
  destruct (set_action_arith sw (selected sw s) Ht) as (H1 & H2).
  split; [ exact H1 | ]. split; [ exact H2 | now apply set_action_clock ].
Qed.

Lemma manual_set_is_modular_witness :
  let set_t_both := mkSwitches true false false false true in
  let s := mkState 1 125 125 0 0 30 (mkTime 9 5 3 2) (mkTime 0 0 0 0)
             OFF 0 true in
  hour_of (selected set_t_both (control_isr set_t_both s)) = 0 /\
  minute_of (selected set_t_both (control_isr set_t_both s)) = 0.
Proof.
  intros set_t_both s.
  assert (Ht : clock_time (selected set_t_both s))
    by (unfold clock_time, valid_time; cbn; lia).
  destruct (manual_set_is_modular set_t_both s eq_refl eq_refl Ht)
    as (H1 & H2 & _).
  rewrite H1, H2. split; vm_compute; reflexivity.
Defined.

(** ** Who writes what *)

(** X8: the seconds routine never writes the alarm time, the alarm flag,
    the hold counter, the repeat threshold, [milliseconds], the digit
    selection or the alarm LED, whatever the switches and the state; and
    with the alarm off it leaves the tone and its timestamp alone too. *)
Theorem timer_isr_writes_clock_and_tone_only (sw : switches) (s : state) :
  gs_alarmKeeper (timer_isr sw s) = gs_alarmKeeper s /\
  alarm_on_off (timer_isr sw s) = alarm_on_off s /\
  switchTimeout (timer_isr sw s) = switchTimeout s /\
  initTimeout (timer_isr sw s) = initTimeout s /\
  milliseconds (timer_isr sw s) = milliseconds s /\
  digitSelect (timer_isr sw s) = digitSelect s /\
  ALARM_LED (timer_isr sw s) = ALARM_LED s /\
  (alarm_on_off s <> ON ->
   alarm_tone (timer_isr sw s) = alarm_tone s /\
   prev_milliseconds (timer_isr sw s) = prev_milliseconds s).
Proof.
  destruct (timer_isr_rest sw s) as (H1 & H2 & H3 & H4 & H5 & H6 & H7).
  do 7 (split; [ assumption | ]).
  intros Hoff. destruct (SET_T_SWITCH sw) eqn:Hsw.
  - rewrite (timer_isr_run sw s Hsw).
    rewrite timer_alarm_off by exact Hoff. split; reflexivity.
  - rewrite (timer_isr_hold sw s Hsw). split; reflexivity.
Qed.

Lemma control_isr_effect (sw : switches) (s : state) :
  seconds (control_isr sw s) = seconds s /\
  gs_timeKeeper (control_isr sw s)
  = (if ALARM_SWITCH sw && SET_A_SWITCH sw && negb (SET_T_SWITCH sw)
        && set_accepts sw s
     then set_action sw (gs_timeKeeper s) else gs_timeKeeper s) /\
  gs_alarmKeeper (control_isr sw s)
  = (if ALARM_SWITCH sw && negb (SET_A_SWITCH sw) && set_accepts sw s
     then set_action sw (gs_alarmKeeper s) else gs_alarmKeeper s) /\
  alarm_on_off (control_isr sw s)
  = (if negb (ALARM_SWITCH sw)
        && (alarm_count (switchTimeout s) =? MIN_DELAY)
     then toggle (alarm_on_off s) else alarm_on_off s).
Proof.
  destruct (control_isr_rest sw s) as (-> & _).
  split; [ reflexivity | ].
  destruct (ALARM_SWITCH sw) eqn:Halarm; cbn [negb andb].
  - destruct (SET_A_SWITCH sw) eqn:Hseta; cbn [negb andb];
      [ destruct (SET_T_SWITCH sw) eqn:Hsett; cbn [negb andb] | ].
    + destruct (tick_idle sw s Halarm Hseta Hsett)
        as (_ & _ & -> & -> & -> & _).
      repeat split; reflexivity.
    + assert (Hmode : set_mode sw = true)
        by (unfold set_mode; now rewrite Halarm, Hseta, Hsett).
      destruct (tick_set sw s Hmode) as (_ & _ & Hsel & _ & Hak & -> & _).
      unfold selected in Hsel. rewrite Hseta in Hsel. cbn [negb] in Hsel.
      rewrite Hsel, (Hak Hseta). repeat split; reflexivity.
    + assert (Hmode : set_mode sw = true)
        by (unfold set_mode; now rewrite Halarm, Hseta).
      destruct (tick_set sw s Hmode) as (_ & _ & Hsel & Htk & _ & -> & _).
      unfold selected in Hsel. rewrite Hseta in Hsel. cbn [negb] in Hsel.
      rewrite Hsel, (Htk Hseta). repeat split; reflexivity.
  - destruct (tick_alarm sw s Halarm) as (_ & _ & -> & -> & -> & _).
    repeat split; reflexivity.
Qed.


(** X9: what a millisecond does to the clock data is decided by the order
    of the tests on the switches.  [seconds] is never written.  The current
    time changes only by one set action, and only with the alarm switch and
    the alarm set switch released and the time set switch pressed; the
    alarm time only with the alarm switch released and the alarm set switch
    pressed, also when the time set switch is pressed with it; the alarm
    flag only with the alarm switch pressed, which keeps both times as they
    are.  The one hold counter is advanced by whichever test is taken and
    cleared by an accepted set action or by a millisecond with no switch
    pressed. *)
Theorem control_isr_switch_priority (sw : switches) (s : state) :
  seconds (control_isr sw s) = seconds s /\
  gs_timeKeeper (control_isr sw s)
  = (if ALARM_SWITCH sw && SET_A_SWITCH sw && negb (SET_T_SWITCH sw)
        && set_accepts sw s
     then set_action sw (gs_timeKeeper s) else gs_timeKeeper s) /\
  gs_alarmKeeper (control_isr sw s)
  = (if ALARM_SWITCH sw && negb (SET_A_SWITCH sw) && set_accepts sw s
     then set_action sw (gs_alarmKeeper s) else gs_alarmKeeper s) /\
  alarm_on_off (control_isr sw s)
  = (if negb (ALARM_SWITCH sw)
        && (alarm_count (switchTimeout s) =? MIN_DELAY)
     then toggle (alarm_on_off s) else alarm_on_off s) /\
  switchTimeout (control_isr sw s)
  = (if negb (ALARM_SWITCH sw) then alarm_count (switchTimeout s)
     else if set_mode sw
          then if set_accepts sw s then 0 else u8 (switchTimeout s + 1)
          else 0).
Proof.
  destruct (control_isr_effect sw s) as (H1 & H2 & H3 & H4).
  do 4 (split; [ assumption | ]).
  destruct (ALARM_SWITCH sw) eqn:Halarm; cbn [negb].
  - destruct (set_mode sw) eqn:Hmode.
    + now destruct (tick_set sw s Hmode) as (-> & _).
    + unfold set_mode in Hmode. rewrite Halarm in Hmode.
      cbn [andb] in Hmode. apply orb_false_iff in Hmode.
      destruct Hmode as [Ha Ht].
      apply negb_false_iff in Ha. apply negb_false_iff in Ht.
      now destruct (tick_idle sw s Halarm Ha Ht) as (-> & _).
  - now destruct (tick_alarm sw s Halarm) as (-> & _).
Qed.

(** ** The cadence of the tone *)

Lemma run_tone (sws : list switches) (s : state) :
  Forall (fun sw => ALARM_SWITCH sw = true) sws ->
  tone_view (run (map Millisecond sws) s)
  = Nat.iter (length sws) tone_tick (tone_view s) /\
  alarm_on_off (run (map Millisecond sws) s) = alarm_on_off s.
Proof.
  intros Hall. revert s. induction Hall as [ | sw sws Hsw _ IH ]; intros s.
  - split; reflexivity.
  - cbn [map run step length]. rewrite Nat.iter_succ_r.
    destruct (IH (control_isr sw s)) as (-> & ->).
    assert (Hq : tone_view (control_isr sw s) = tone_tick (tone_view s) /\
                 alarm_on_off (control_isr sw s) = alarm_on_off s).
    { destruct (SET_A_SWITCH sw) eqn:Hseta;
        [ destruct (SET_T_SWITCH sw) eqn:Hsett | ].
      - now destruct (tick_idle sw s Hsw Hseta Hsett)
          as (_ & _ & _ & _ & -> & ->).
      - assert (Hmode : set_mode sw = true)
          by (unfold set_mode; now rewrite Hsw, Hseta, Hsett).
        now destruct (tick_set sw s Hmode) as (_ & _ & _ & _ & _ & -> & ->).
      - assert (Hmode : set_mode sw = true)
          by (unfold set_mode; now rewrite Hsw, Hseta).
        now destruct (tick_set sw s Hmode) as (_ & _ & _ & _ & _ & -> & ->). }
    destruct Hq as (-> & ->). split; reflexivity.
Qed.

Lemma u16_small (x : Z) : 0 <= x < 65536 -> u16 x = x.
Proof. intros H. unfold u16. now apply Z.mod_small. Qed.

Lemma u16_elapsed (ms pms : Z) :
  u16 (u16 (ms + 1) - pms) = u16 (u16 (ms - pms) + 1).
Proof.
  unfold u16. rewrite Zminus_mod_idemp_l, Zplus_mod_idemp_l.
  f_equal. lia.
Qed.

(** While the time since the last change of tone is within [TONE_TIME]
    the tone is left as it is. *)
Lemma tone_waits (n : nat) (ms pms tone : Z) :
  0 <= ms < 65536 ->
  u16 (ms - pms) + Z.of_nat n <= TONE_TIME ->
  Nat.iter n tone_tick (ms, pms, tone) = (u16 (ms + Z.of_nat n), pms, tone).
Proof.
  revert ms. induction n as [ | n IH ]; intros ms Hms Hn.
  - cbn [Nat.iter]. rewrite Z.add_0_r, u16_small by exact Hms. reflexivity.
  - rewrite Nat.iter_succ_r.
    assert (H0 : 0 <= u16 (ms - pms)) by (apply Z.mod_pos_bound; lia).
    assert (Hel : u16 (u16 (ms + 1) - pms) = u16 (ms - pms) + 1).
    { rewrite u16_elapsed. apply u16_small. unfold TONE_TIME in Hn. lia. }
    assert (Hstep : tone_tick (ms, pms, tone) = (u16 (ms + 1), pms, tone)).
    { unfold tone_tick, tone_next. rewrite Hel.
      destruct (u16 (ms - pms) + 1 >? TONE_TIME) eqn:E;
        [ bool_to_prop; lia | ].
      now rewrite andb_false_r. }
    rewrite Hstep, IH.
    + f_equal. f_equal. unfold u16. rewrite Zplus_mod_idemp_l. f_equal. lia.
    + apply Z.mod_pos_bound. lia.
    + rewrite Hel. lia.
Qed.

(** X10: a tone that has just changed is left alone for 250 ms and steps
    at the 251st, from [t] to [t - 1] and from 1 back to 7, never to 0,
    whatever the set switches do in between; the step is timed on the
    16 bit millisecond counter and is right across its wrap. *)
Theorem tone_steps_every_251_ms (sws : list switches) (s : state) :
  Forall (fun sw => ALARM_SWITCH sw = true) sws ->
  0 <= milliseconds s < 65536 ->
  prev_milliseconds s = milliseconds s ->
  1 <= alarm_tone s <= 7 ->
  ((length sws <= 250)%nat ->
   alarm_tone (run (map Millisecond sws) s) = alarm_tone s /\
   prev_milliseconds (run (map Millisecond sws) s) = prev_milliseconds s) /\
  (length sws = 251%nat ->
   alarm_tone (run (map Millisecond sws) s)
   = (if alarm_tone s =? 1 then 7 else alarm_tone s - 1) /\
   prev_milliseconds (run (map Millisecond sws) s)
   = milliseconds (run (map Millisecond sws) s) /\
   milliseconds (run (map Millisecond sws) s)
   = u16 (milliseconds s + 251)).
Proof.
  intros Hall Hms Hprev Htone.
  destruct (run_tone sws s Hall) as (Hview & _).
  unfold tone_view in Hview. rewrite Hprev in *.
  assert (Hzero : u16 (milliseconds s - milliseconds s) = 0)
    by (rewrite Z.sub_diag; reflexivity).
  split.
  - intros Hlen.
    rewrite tone_waits in Hview
      by (try assumption; rewrite Hzero; unfold TONE_TIME; lia).
    injection Hview as _ Hp Ht. now rewrite Hp, Ht.
  - intros Hlen. rewrite Hlen in Hview.
    change 251%nat with (S 250) in Hview. rewrite Nat.iter_succ in Hview.
    rewrite tone_waits in Hview
      by (try assumption; rewrite Hzero; unfold TONE_TIME; lia).
    unfold tone_tick, tone_next in Hview.
    rewrite u16_elapsed in Hview.
    replace (u16 (u16 (milliseconds s + Z.of_nat 250) - milliseconds s))
      with 250 in Hview.
    2:{ unfold u16. rewrite Zminus_mod_idemp_l.
        replace (milliseconds s + Z.of_nat 250 - milliseconds s) with 250
          by lia.
        reflexivity. }
    change (u16 (250 + 1) >? TONE_TIME) with true in Hview.
    destruct (alarm_tone s =? 0) eqn:E0; [ bool_to_prop; lia | ].
    cbn [negb andb] in Hview.
    injection Hview as Hm Hp Ht. rewrite Hm, Hp, Ht.
    split; [ | split; [ reflexivity | ] ].
    + destruct (alarm_tone s <=? 1) eqn:E1;
        destruct (alarm_tone s =? 1) eqn:E2; bool_to_prop;
        try lia; try reflexivity.
      apply u8_small. lia.
    + unfold u16. rewrite Zplus_mod_idemp_l. f_equal. lia.
Qed.

Lemma tone_steps_every_251_ms_witness :
  let s := mkState 1 0 125 65500 65500 0 midnight midnight ON 1 false in
  alarm_tone (run (map Millisecond (repeat released 250)) s) = 1 /\
  alarm_tone (run (map Millisecond (repeat released 251)) s) = 7 /\
  milliseconds (run (map Millisecond (repeat released 251)) s) = 215.
Proof.
  intros s.
  assert (Hall : forall n, Forall (fun sw => ALARM_SWITCH sw = true)
                             (repeat released n))
    by (intros n; now apply Forall_repeat).
  assert (Hms : 0 <= milliseconds s < 65536) by (cbn; lia).
  assert (Ht : 1 <= alarm_tone s <= 7) by (cbn; lia).
  destruct (tone_steps_every_251_ms _ s (Hall 250%nat) Hms eq_refl Ht)
    as (H250 & _).
  destruct (tone_steps_every_251_ms _ s (Hall 251%nat) Hms eq_refl Ht)
    as (_ & H251).
  destruct H250 as (Ha & _); [ rewrite repeat_length; lia | ].
  destruct H251 as (Hb & _ & Hc); [ apply repeat_length | ].
  split; [ exact Ha | ]. split; [ exact Hb | exact Hc ].
Defined.

(** ** The display loop *)

Lemma segment_digit (d : Z) :
  0 <= d <= 9 ->
  exists p, segment d = Some p /\ digit_of_pattern p = Some d.
Proof.
  intros H.
  assert (E : d = 0 \/ d = 1 \/ d = 2 \/ d = 3 \/ d = 4 \/ d = 5 \/ d = 6
              \/ d = 7 \/ d = 8 \/ d = 9) by lia.
  repeat (destruct E as [-> | E]); [ .. | subst d ];
    eexists; split; reflexivity.
Qed.

Lemma digit_at_range (c : Z) (t : time) :
  clock_time t -> 0 <= digit_at c t <= 9.
Proof.
  intros ((Hom & Htm & Hoh & Hw) & Hth). unfold digit_at.
  destruct (c =? 1); [ lia | ]. destruct (c =? 2); [ lia | ].
  destruct (c =? 4); lia.
Qed.

(** A pass that finds the digit selection changed, in a state the
    routines keep to. *)
Lemma display_refresh_changed (sw : switches) (s : state) (d : display) :
  state_ok s -> (prev_digitSelect d =? digitSelect s) = false ->
  exists p,
    segment (digit_at (digitSelect s)
               (if SET_A_SWITCH sw then gs_timeKeeper s
                else gs_alarmKeeper s)) = Some p /\
    display_refresh sw s d
    = Some (mkDisplay p
              (set_DOT_LED
                 (if negb (SET_T_SWITCH sw) || negb (SET_A_SWITCH sw) then 0
                  else Z.land (seconds s) 0x01)
                 (Z.lor (Z.land (P1 d) 0xC0)
                    (if negb (SET_A_SWITCH sw) then 0x00
                     else Z.land (Z.lnot (seconds s)) 0x3F)))
              (u8 (Z.lor (Z.shiftl (alarm_tone s) 4)
                     (Z.land (digitSelect s) 0x0F)))
              (digitSelect s)).
Proof.
  intros (_ & Htk & Hak & Hds & _) Hne.
  assert (Ht : clock_time (if SET_A_SWITCH sw then gs_timeKeeper s
                           else gs_alarmKeeper s))
    by (destruct (SET_A_SWITCH sw); assumption).
  destruct (segment_digit _ (digit_at_range (digitSelect s) _ Ht))
    as (p & Hp & _).
  exists p. split; [ exact Hp | ].
  unfold display_refresh. rewrite Hne. cbn [negb]. cbv zeta.
  unfold digit_at in Hp.
  destruct Hds as [E | [E | [E | E]]]; rewrite E in *; cbn [Z.eqb Pos.eqb] in *;
    destruct (SET_A_SWITCH sw); rewrite Hp; reflexivity.
Qed.

(** X11: in every reachable state a pass of the display loop reads
    [segmentArray] within its ten entries, and the pattern it puts on [P0]
    is the pattern of the digit under the digit selection, of the current
    time with the alarm set switch released and of the alarm time with it
    pressed; the digit can be read back from the pattern. *)
Theorem display_shows_selected_digit
    (es : list event) (sw : switches) (d : display) :
  exists d',
    display_refresh sw (run es init_state) d = Some d' /\
    (prev_digitSelect d <> digitSelect (run es init_state) ->
     digit_of_pattern (P0 d')
     = Some (digit_at (digitSelect (run es init_state))
               (if SET_A_SWITCH sw then gs_timeKeeper (run es init_state)
                else gs_alarmKeeper (run es init_state)))).
Proof.
  pose proof (run_ok es init_state init_state_ok) as Hok.
  set (s := run es init_state) in *.
  destruct (prev_digitSelect d =? digitSelect s) eqn:E.
  - exists d. split.
    + unfold display_refresh. now rewrite E.
    + intros Hne. bool_to_prop. contradiction.
  - destruct (display_refresh_changed sw s d Hok E) as (p & Hp & ->).
    eexists. split; [ reflexivity | ]. intros _. cbn [P0].
    destruct Hok as (_ & Htk & Hak & _).
    assert (Ht : clock_time (if SET_A_SWITCH sw then gs_timeKeeper s
                             else gs_alarmKeeper s))
      by (destruct (SET_A_SWITCH sw); assumption).
    destruct (segment_digit _ (digit_at_range (digitSelect s) _ Ht))
      as (p' & Hp' & Hd).
    congruence.
Qed.

(** X12: a pass of the display loop writes the ports only when the digit
    selection has changed since its last write; it then records the
    selection, so a second pass on the same state writes nothing. *)
Theorem display_refresh_only_on_change
    (es : list event) (sw sw' : switches) (d : display) :
  (prev_digitSelect d = digitSelect (run es init_state) ->
   display_refresh sw (run es init_state) d = Some d) /\
  (forall d', display_refresh sw (run es init_state) d = Some d' ->
     prev_digitSelect d' = digitSelect (run es init_state) /\
     display_refresh sw' (run es init_state) d' = Some d').
Proof.
  pose proof (run_ok es init_state init_state_ok) as Hok.
  set (s := run es init_state) in *.
  assert (Hsame : forall x y, prev_digitSelect y = digitSelect s ->
                    display_refresh x s y = Some y).
  { intros x y Hy. unfold display_refresh. rewrite Hy, Z.eqb_refl.
    reflexivity. }
  split; [ apply Hsame | ].
  intros d' Hd'.
  assert (Hprev : prev_digitSelect d' = digitSelect s).
  { destruct (prev_digitSelect d =? digitSelect s) eqn:E.
    - bool_to_prop. rewrite (Hsame sw d E) in Hd'. congruence.
    - destruct (display_refresh_changed sw s d Hok E) as (p & _ & Hr).
      rewrite Hr in Hd'. injection Hd' as <-. reflexivity. }
  split; [ exact Hprev | now apply Hsame ].
Qed.

Lemma land_one_parity (x : Z) : Z.land x 1 = (if Z.odd x then 1 else 0).
Proof.
  change 1 with (Z.ones 1) at 1. rewrite Z.land_ones by lia.
  change (2 ^ 1) with 2. apply Zmod_odd.
Qed.

Lemma land_lnot_six (x : Z) :
  0 <= x <= 63 -> Z.land (Z.lnot x) 0x3F = 63 - x.
Proof.
  intros H.
  change (Z.land (Z.lnot x) 0x3F) with (Z.land (Z.lnot x) (Z.ones 6)).
  rewrite Z.land_ones by lia.
  change (2 ^ 6) with 64. symmetry.
  apply Z.mod_unique with (q := -1); [ left; lia | ].
  unfold Z.lnot. lia.
Qed.

Lemma set_DOT_LED_bits (v p : Z) :
  Z.testbit (set_DOT_LED v p) 6 = negb (v =? 0) /\
  Z.testbit (set_DOT_LED v p) 7 = Z.testbit p 7 /\
  Z.land (set_DOT_LED v p) 0x3F = Z.land p 0x3F.
Proof.
  unfold set_DOT_LED. split; [ | split ].
  - rewrite Z.lor_spec, Z.land_spec. change (Z.testbit 0xBF 6) with false.
    rewrite andb_false_r. now destruct (v =? 0).
  - rewrite Z.lor_spec, Z.land_spec. change (Z.testbit 0xBF 7) with true.
    rewrite andb_true_r. destruct (v =? 0); apply orb_false_r.
  - rewrite Z.land_lor_distr_l, <- Z.land_assoc.
    change (Z.land 0xBF 0x3F) with 0x3F.
    destruct (v =? 0); apply Z.lor_0_r.
Qed.

Lemma seconds_bits (p x : Z) :
  Z.testbit (Z.lor (Z.land p 0xC0) (Z.land x 0x3F)) 7 = Z.testbit p 7 /\
  Z.land (Z.lor (Z.land p 0xC0) (Z.land x 0x3F)) 0x3F = Z.land x 0x3F.
Proof.
  split.
  - rewrite Z.lor_spec, !Z.land_spec. change (Z.testbit 0xC0 7) with true.
    change (Z.testbit 0x3F 7) with false.
    now rewrite andb_true_r, andb_false_r, orb_false_r.
  - rewrite Z.land_lor_distr_l, <- !Z.land_assoc.
    change (Z.land 0xC0 0x3F) with 0. change (Z.land 0x3F 0x3F) with 0x3F.
    now rewrite Z.land_0_r, Z.lor_0_l.
Qed.

(** X13: what a pass of the display loop that writes the ports leaves on
    [P1] in a reachable state.  The low six bits are the complement of
    [seconds], so [seconds] can be read back as 63 minus them, with the
    alarm set switch released, and are 0 with it pressed.  Bit 6, the pin
    of the dot LED, is 1 exactly when both set switches are released and
    [seconds] is odd.  Bit 7, the pin of the alarm LED that the
    millisecond routine drives, is left as it was. *)
Theorem display_seconds_port
    (es : list event) (sw : switches) (d d' : display) :
  prev_digitSelect d <> digitSelect (run es init_state) ->
  display_refresh sw (run es init_state) d = Some d' ->
  Z.land (P1 d') 0x3F
  = (if SET_A_SWITCH sw then 63 - seconds (run es init_state) else 0) /\
  Z.testbit (P1 d') 6
  = SET_T_SWITCH sw && SET_A_SWITCH sw && Z.odd (seconds (run es init_state))
  /\ Z.testbit (P1 d') 7 = Z.testbit (P1 d) 7.
Proof.
  intros Hne Hd'.
  pose proof (run_ok es init_state init_state_ok) as Hok.
  set (s := run es init_state) in *.
  assert (E : (prev_digitSelect d =? digitSelect s) = false)
    by now apply Z.eqb_neq.
  destruct (display_refresh_changed sw s d Hok E) as (p & _ & Hr).
  rewrite Hr in Hd'. injection Hd' as <-. cbn [P1].
  destruct Hok as (Hsec & _).
  match goal with
  | |- context [set_DOT_LED ?v ?q] =>
      destruct (set_DOT_LED_bits v q) as (-> & -> & ->)
  end.
  destruct (SET_A_SWITCH sw); cbn [negb orb andb].
  - destruct (seconds_bits (P1 d) (Z.lnot (seconds s))) as (-> & ->).
    rewrite land_lnot_six by lia. split; [ reflexivity | ].
    split; [ | reflexivity ].
    destruct (SET_T_SWITCH sw); cbn [negb andb]; [ | reflexivity ].
    rewrite land_one_parity. now destruct (Z.odd (seconds s)).
  - change 0x00 with (Z.land 0 0x3F).
    destruct (seconds_bits (P1 d) 0) as (-> & ->).
    rewrite orb_true_r, andb_false_r. repeat split; reflexivity.
Qed.

Lemma display_seconds_port_witness :
  let s := run [Second released; Second released; Second released;
                Millisecond released] init_state in
  exists d',
    display_refresh released s init_display = Some d' /\
    seconds s = 3 /\ Z.land (P1 d') 0x3F = 60 /\
    Z.testbit (P1 d') 6 = true /\ Z.testbit (P1 d') 7 = true.
Proof.
  intros s.
  assert (Hne : prev_digitSelect init_display <> digitSelect s)
    by (vm_compute; discriminate).
  assert (Hr : exists d', display_refresh released s init_display = Some d')
    by (eexists; vm_compute; reflexivity).
  destruct Hr as (d' & Hd'). exists d'.
  destruct (display_seconds_port
              [Second released; Second released; Second released;
               Millisecond released] released init_display d' Hne Hd')
    as (H1 & H2 & H3).
  split; [ exact Hd' | ]. split; [ reflexivity | ].
  split; [ exact H1 | ]. split; [ exact H2 | exact H3 ].
Defined.

Lemma tone_digit_byte (tone ds : Z) :
  0 <= tone <= 7 -> one_hot ds ->
  u8 (Z.lor (Z.shiftl tone 4) (Z.land ds 0x0F)) = 16 * tone + ds /\
  Z.shiftr (16 * tone + ds) 4 = tone /\
  Z.land (16 * tone + ds) 0x0F = ds.
Proof.
  intros Ht Hds.
  assert (E : tone = 0 \/ tone = 1 \/ tone = 2 \/ tone = 3 \/ tone = 4
              \/ tone = 5 \/ tone = 6 \/ tone = 7) by lia.
  destruct Hds as [-> | [-> | [-> | ->]]];
    repeat (destruct E as [-> | E]); subst;
    repeat split; reflexivity.
Qed.

(** X14: a pass of the display loop that writes the ports puts on [P2]
    the tone in the high four bits and the digit selection in the low
    four, [16 * alarm_tone + digitSelect] in a reachable state; both can
    be read back from the port, and exactly one of the four digit lines
    is 1. *)
Theorem display_tone_and_digit_port
    (es : list event) (sw : switches) (d d' : display) :
  prev_digitSelect d <> digitSelect (run es init_state) ->
  display_refresh sw (run es init_state) d = Some d' ->
  P2 d' = 16 * alarm_tone (run es init_state)
          + digitSelect (run es init_state) /\
  Z.shiftr (P2 d') 4 = alarm_tone (run es init_state) /\
  Z.land (P2 d') 0x0F = digitSelect (run es init_state) /\
  one_hot (Z.land (P2 d') 0x0F).
Proof.
  intros Hne Hd'.
  pose proof (run_ok es init_state init_state_ok) as Hok.
  set (s := run es init_state) in *.
  assert (E : (prev_digitSelect d =? digitSelect s) = false)
    by now apply Z.eqb_neq.
  destruct (display_refresh_changed sw s d Hok E) as (p & _ & Hr).
  match type of Hr with
  | _ = Some ?x => assert (Hx : d' = x) by congruence
  end.
  subst d'. cbn [P2].
  destruct Hok as (_ & _ & _ & Hds & Htone & _).
  destruct (tone_digit_byte (alarm_tone s) (digitSelect s) Htone Hds)
    as (-> & -> & ->).
  repeat split; try reflexivity. exact Hds.
Qed.

Lemma display_tone_and_digit_port_witness :
  let es := [Millisecond released; Millisecond released] in
  exists d',
    display_refresh released (run es init_state) init_display = Some d' /\
    P2 d' = 4.
Proof.
  intros es.
  assert (Hne : prev_digitSelect init_display
                <> digitSelect (run es init_state))
    by (vm_compute; discriminate).
  assert (Hr : exists d',
             display_refresh released (run es init_state) init_display
             = Some d')
    by (eexists; vm_compute; reflexivity).
  destruct Hr as (d' & Hd'). exists d'.
  destruct (display_tone_and_digit_port es released init_display d' Hne Hd')
    as (H1 & _).
  split; [ exact Hd' | exact H1 ].
Defined.

(** ** The wait for the time set switch *)

Lemma set_ALARM_LED_pin_bits (v : bool) (p : Z) :
  Z.testbit (set_ALARM_LED_pin v p) 7 = v /\
  Z.land (set_ALARM_LED_pin v p) 0x7F = Z.land p 0x7F.
Proof.
  unfold set_ALARM_LED_pin. split.
  - rewrite Z.lor_spec, Z.land_spec. change (Z.testbit 0x7F 7) with false.
    rewrite andb_false_r. now destruct v.
  - rewrite Z.land_lor_distr_l, <- Z.land_assoc.
    change (Z.land 0x7F 0x7F) with 0x7F.
    destruct v; apply Z.lor_0_r.
Qed.

Lemma land_low_six (p q : Z) :
  Z.land p 0x7F = Z.land q 0x7F -> Z.land p 0x3F = Z.land q 0x3F.
Proof.
  intros H. change 0x3F with (Z.land 0x7F 0x3F).
  now rewrite !Z.land_assoc, H.
Qed.

Lemma ports_kept_trans (c1 c2 c3 : state * display) :
  ports_kept c1 c2 -> ports_kept c2 c3 -> ports_kept c1 c3.
Proof.
  intros (A1 & A2 & A3 & A4) (B1 & B2 & B3 & B4).
  repeat split; try congruence. auto.
Qed.

Lemma interrupt_ports_kept (e : event) (s : state) (d : display) :
  ports_kept (s, d) (step e s, interrupt_ports e s d).
Proof.
  unfold ports_kept. cbn [fst snd].
  destruct e as [sw | sw]; cbn [interrupt_ports step].
  - destruct (control_isr_rest sw s) as (_ & _ & _ & Hpin).
    destruct (negb (ALARM_SWITCH sw)
              && (alarm_count (switchTimeout s) =? MIN_DELAY)).
    + cbn [P0 P1 P2 prev_digitSelect].
      destruct (set_ALARM_LED_pin_bits (ALARM_LED (control_isr sw s)) (P1 d))
        as (Hb & Hl).
      repeat split; [ now apply land_low_six | intros _; exact Hb ].
    + rewrite Hpin. repeat split. auto.
  - destruct (timer_isr_rest sw s) as (_ & _ & _ & _ & _ & _ & ->).
    repeat split. auto.
Qed.

Lemma wait_DOT_LED_kept (s : state) (d : display) :
  ports_kept (s, d) (wait_DOT_LED (s, d)).
Proof.
  unfold ports_kept, wait_DOT_LED. cbn [fst snd P0 P1 prev_digitSelect].
  destruct (set_DOT_LED_bits (Z.land (seconds s) 1) (P1 d)) as (_ & -> & ->).
  repeat split. auto.
Qed.

Lemma wait_run_step (b : nat) (es : list wait_event) (s : state)
    (d : display) :
  forallb event_SET_T es = true -> paced b es = true ->
  valid_time (gs_timeKeeper s) ->
  0 <= seconds s -> seconds s + Z.of_nat b <= 59 ->
  gs_timeKeeper (fst (wait_run es (s, d))) = gs_timeKeeper s /\
  0 <= seconds (fst (wait_run es (s, d))) <= 59 /\
  ports_kept (s, d) (wait_run es (s, d)).
Proof.
  revert b s d.
  induction es as [ | e es IH ]; intros b s d Hsw Hp Ht H0 Hb.
  - cbn [wait_run fst snd]. repeat split; lia || auto.
  - cbn [forallb] in Hsw. apply andb_true_iff in Hsw.
    destruct Hsw as [Hsw Hrest].
    destruct e as [ | | | e ].
    + cbn [wait_run paced] in *. unfold wait_P2.
      destruct (IH b s (mkDisplay (P0 d) (P1 d)
                          (if negb (Z.land (seconds s) 1 =? 0)
                           then 15 else 0) (prev_digitSelect d)))
        as (I1 & I2 & I3); try assumption.
      split; [ exact I1 | ]. split; [ exact I2 | ].
      refine (ports_kept_trans _ _ _ _ I3). repeat split. auto.
    + cbn [wait_run paced] in *.
      pose proof (wait_DOT_LED_kept s d) as K. unfold wait_DOT_LED in *.
      destruct (IH b s (mkDisplay (P0 d)
                          (set_DOT_LED (Z.land (seconds s) 1) (P1 d))
                          (P2 d) (prev_digitSelect d)))
        as (I1 & I2 & I3); try assumption.
      split; [ exact I1 | ]. split; [ exact I2 | ].
      exact (ports_kept_trans _ _ _ K I3).
    + cbn [wait_run paced] in *. unfold wait_seconds.
      assert (Hpar : 0 <= Z.land (seconds s) 1 <= 1)
        by (rewrite land_one_parity; destruct (Z.odd (seconds s)); lia).
      destruct (IH 58%nat (set_seconds (Z.land (seconds s) 1) s) d)
        as (I1 & I2 & I3); fields; try assumption; try lia.
      split; [ exact I1 | ]. split; [ exact I2 | ].
      refine (ports_kept_trans _ _ _ _ I3). repeat split. auto.
    + cbn [wait_run fst snd].
      pose proof (interrupt_ports_kept e s d) as K.
      assert (Hclock : exists b',
                 paced b' es = true /\
                 gs_timeKeeper (step e s) = gs_timeKeeper s /\
                 0 <= seconds (step e s) /\
                 seconds (step e s) + Z.of_nat b' <= 59).
      { destruct e as [sw | sw]; cbn [paced event_SET_T step] in *.
        - exists b. destruct (control_isr_effect sw s) as (Hsec & Htk & _).
          rewrite Hsw in Htk. cbn [negb andb] in Htk.
          rewrite andb_false_r in Htk. cbn [andb] in Htk.
          rewrite Htk, Hsec. repeat split; assumption.
        - destruct b as [ | b ]; [ discriminate | ]. exists b.
          pose proof (timer_isr_clock sw s Hsw) as Hc.
          rewrite spec_seconds_step_inside in Hc by (assumption || lia).
          injection Hc as Hs Hk. rewrite Hs, Hk.
          repeat split; try assumption; lia. }
      destruct Hclock as (b' & Hp' & Hk & Hs0 & Hsb).
      destruct (IH b' (step e s) (interrupt_ports e s d))
        as (I1 & I2 & I3); rewrite ?Hk; try assumption.
      split; [ now rewrite I1 | ]. split; [ exact I2 | ].
      exact (ports_kept_trans _ _ _ K I3).
Qed.

(** X15: while [waitForTimeSet] waits, the masking of [seconds] to its
    low bit keeps the clock from starting.  With the time set switch
    released at every interrupt, and line 224 of the loop run at least
    once in any 58 invocations of the seconds routine, the current time is
    never advanced and [seconds] stays within 0..59, wherever the
    interrupts fall between the statements of the loop.  The loop and the
    interrupts leave the segment pattern on [P0] and the low six bits of
    [P1] alone; bit 7 of [P1], the alarm LED, which the millisecond routine
    writes when it toggles the alarm, stays the pin the routines last
    wrote through the writes of the dot LED. *)
Theorem wait_keeps_clock_stopped
    (es : list wait_event) (s : state) (d : display) :
  forallb event_SET_T es = true -> paced 58 es = true ->
  valid_time (gs_timeKeeper s) -> 0 <= seconds s <= 1 ->
  gs_timeKeeper (fst (wait_run es (s, d))) = gs_timeKeeper s /\
  0 <= seconds (fst (wait_run es (s, d))) <= 59 /\
  P0 (snd (wait_run es (s, d))) = P0 d /\
  prev_digitSelect (snd (wait_run es (s, d))) = prev_digitSelect d /\
  Z.land (P1 (snd (wait_run es (s, d)))) 0x3F = Z.land (P1 d) 0x3F /\
  (Z.testbit (P1 d) 7 = ALARM_LED s ->
   Z.testbit (P1 (snd (wait_run es (s, d)))) 7
   = ALARM_LED (fst (wait_run es (s, d)))).
Proof.
  intros Hsw Hp Ht Hsec.
  destruct (wait_run_step 58 es s d) as (H1 & H2 & H3 & H4 & H5 & H6);
    try assumption; try lia.
  cbn [fst snd] in H3, H4, H5, H6.
  repeat split; assumption || apply H2.
Qed.

Lemma wait_keeps_clock_stopped_witness :
  let alarm := mkSwitches true true true true false in
  let es := [Interrupt (Second released); Interrupt (Second released);
             Flash; Interrupt (Millisecond released); Dot; Mask;
             Interrupt (Second released); Flash; Dot; Mask]
            ++ map (fun sw => Interrupt (Millisecond sw)) (repeat alarm 75)
            ++ [Flash; Dot; Mask] in
  gs_timeKeeper (fst (wait_run es (init_state, init_display))) = midnight /\
  0 <= seconds (fst (wait_run es (init_state, init_display))) <= 59 /\
  Z.testbit (P1 (snd (wait_run es (init_state, init_display)))) 7
  = ALARM_LED (fst (wait_run es (init_state, init_display))) /\
  alarm_on_off (fst (wait_run es (init_state, init_display))) = ON /\
  P1 (snd (wait_run es (init_state, init_display))) = 0x7F.
Proof.
  intros alarm es.
  assert (Ht : valid_time (gs_timeKeeper init_state))
    by (unfold valid_time; cbn; lia).
  assert (Hsec : 0 <= seconds init_state <= 1) by (cbn; lia).
  destruct (wait_keeps_clock_stopped es init_state init_display
              eq_refl eq_refl Ht Hsec)
    as (H1 & H2 & _ & _ & _ & H6).
  split; [ exact H1 | ]. split; [ exact H2 | ].
  split; [ exact (H6 eq_refl) | ].
  split; vm_compute; reflexivity.
Defined.

(** A pass of the wait loop leaves [seconds] at its parity and drives the
    four digit lines together. *)
Lemma wait_pass_parity (s : state) (d : display) :
  seconds (fst (wait_pass (s, d))) = (if Z.odd (seconds s) then 1 else 0) /\
  P2 (snd (wait_pass (s, d))) = (if Z.odd (seconds s) then 0x0F else 0x00).
Proof.
  unfold wait_pass, wait_seconds, wait_DOT_LED, wait_P2.
  cbn [fst snd seconds set_seconds P2].
  rewrite land_one_parity. now destruct (Z.odd (seconds s)).
Qed.

(** ** A set switch held alone *)

(** X16: while a set switch is held with both increment switches
    released, nothing is set and the repeat threshold is at 125, but the
    hold counter runs on and wraps at 256: after [n] such milliseconds it
    is [(switchTimeout + n) mod 256].  An increment switch pressed then is
    accepted in the same millisecond exactly when this count plus one,
    modulo 256, is above 125. *)
Theorem set_switch_alone_counts_mod_256
    (sws : list switches) (sw : switches) (s : state) :
  Forall (fun x => set_mode x = true /\ MINUTE_SWITCH x = true
                   /\ HOUR_SWITCH x = true) sws ->
  sws <> [] ->
  0 <= switchTimeout s <= 255 ->
  switchTimeout (run (map Millisecond sws) s)
  = (switchTimeout s + Z.of_nat (length sws)) mod 256 /\
  initTimeout (run (map Millisecond sws) s) = INIT_DELAY /\
  gs_timeKeeper (run (map Millisecond sws) s) = gs_timeKeeper s /\
  gs_alarmKeeper (run (map Millisecond sws) s) = gs_alarmKeeper s /\
  (MINUTE_SWITCH sw = false \/ HOUR_SWITCH sw = false ->
   set_accepts sw (run (map Millisecond sws) s)
   = ((switchTimeout s + Z.of_nat (length sws) + 1) mod 256 >? 125)).
Proof.
  intros Hall Hne Hst.
  assert (Hrun : switchTimeout (run (map Millisecond sws) s)
                 = (switchTimeout s + Z.of_nat (length sws)) mod 256 /\
                 (sws <> [] ->
                  initTimeout (run (map Millisecond sws) s) = INIT_DELAY) /\
                 gs_timeKeeper (run (map Millisecond sws) s)
                 = gs_timeKeeper s /\
                 gs_alarmKeeper (run (map Millisecond sws) s)
                 = gs_alarmKeeper s).
  { clear Hne. revert s Hst.
    induction sws as [ | x sws IH ] using rev_ind; intros s Hst.
    - cbn [map run length]. rewrite Z.add_0_r, Z.mod_small by lia.
      repeat split; try reflexivity. intros H; now contradiction H.
    - apply Forall_app in Hall. destruct Hall as [Hall Hx].
      inversion Hx as [ | ? ? (Hmode & Hmin & Hhour) _ ]; subst.
      destruct (IH Hall s Hst) as (I1 & _ & I3 & I4).
      rewrite map_app, run_app. cbn [map run step].
      set (s1 := run (map Millisecond sws) s) in *.
      assert (Hacc : set_accepts x s1 = false)
        by (unfold set_accepts; now rewrite Hmin, Hhour).
      destruct (tick_set x s1 Hmode) as (H1 & H2 & Hsel & Htk & Hak & _).
      rewrite Hacc in H1, H2, Hsel. rewrite Hmin, Hhour in H2.
      cbn [andb] in H2.
      assert (Hk : gs_timeKeeper (control_isr x s1) = gs_timeKeeper s1 /\
                   gs_alarmKeeper (control_isr x s1) = gs_alarmKeeper s1).
      { unfold selected in Hsel.
        destruct (SET_A_SWITCH x); cbn [negb] in Hsel.
        - split; [ exact Hsel | now apply Hak ].
        - split; [ now apply Htk | exact Hsel ]. }
      destruct Hk as (-> & ->). rewrite H1, H2, I1, I3, I4.
      repeat split; try reflexivity.
      unfold u8. rewrite Zplus_mod_idemp_l, length_app. cbn [length].
      f_equal. lia. }
  destruct Hrun as (H1 & H2 & H3 & H4).
  split; [ exact H1 | ]. split; [ now apply H2 | ].
  split; [ exact H3 | ]. split; [ exact H4 | ].
  intros Hpress. unfold set_accepts. rewrite H1, (H2 Hne).
  unfold u8. rewrite Zplus_mod_idemp_l.
  destruct Hpress as [-> | ->];
    destruct (MINUTE_SWITCH sw), (HOUR_SWITCH sw); reflexivity.
Qed.

Lemma set_switch_alone_counts_mod_256_witness :
  let set_t := mkSwitches true false true true true in
  let set_t_minute := mkSwitches true false true false true in
  switchTimeout (run (map Millisecond (repeat set_t 300)) init_state) = 44 /\
  set_accepts set_t_minute
    (run (map Millisecond (repeat set_t 300)) init_state) = false /\
  set_accepts set_t_minute
    (run (map Millisecond (repeat set_t 200)) init_state) = true.
Proof.
  intros set_t set_t_minute.
  assert (Hall : forall n,
             Forall (fun x => set_mode x = true /\ MINUTE_SWITCH x = true
                              /\ HOUR_SWITCH x = true) (repeat set_t n))
    by (intros n; apply Forall_repeat; repeat split; reflexivity).
  assert (Hst : 0 <= switchTimeout init_state <= 255) by (cbn; lia).
  assert (Hpress : MINUTE_SWITCH set_t_minute = false
                   \/ HOUR_SWITCH set_t_minute = false)
    by (left; reflexivity).
  destruct (set_switch_alone_counts_mod_256 (repeat set_t 300) set_t_minute
              init_state (Hall 300%nat)) as (H1 & _ & _ & _ & H5);
    [ discriminate | exact Hst | ].
  destruct (set_switch_alone_counts_mod_256 (repeat set_t 200) set_t_minute
              init_state (Hall 200%nat)) as (_ & _ & _ & _ & H6);
    [ discriminate | exact Hst | ].
  rewrite H1, (H5 Hpress), (H6 Hpress), !repeat_length.
  repeat split; vm_compute; reflexivity.
Defined.
